(** * Agentic: the autonomous execution loop and its session store

    A shallow embedding of [core/autonomous_agent.py] (the tools, the
    tool dispatcher and the loop controller of [AutonomousAgent]), of
    [core/project_session.py] (the session store) and of
    [core/terminal_executor.py] (the terminal the agent runs commands
    on), with the properties the specification states about them and
    further properties of the code.

    Python values are kept as the code has them: the result of
    [json.loads] is a [json] tree, a [dict] literal returned to the caller
    is a [gmap string json], an exception is the text of [str(e)].
    Everything outside the repository (the completion service, the
    processes of the operating system, the file system, the headless
    browser, the [json] codec) is a parameter, bundled in type classes.
    The agent takes its terminal as such a parameter as well;
    [TerminalExecutor.execute] is the one the repository gives it. *)

From Stdlib Require Import ZArith String Ascii List Bool Lia Sorted.
From stdpp Require Import base tactics option list gmap strings pretty.

Set Warnings "-register-all,-clear-no-such-hyp".

Local Open Scope string_scope.
Local Open Scope Z_scope.

(** ** Python values and string operations *)

Module Py.

(** The outcome of a Python call: a value, or a raised exception carried
    as the text of [str(e)]. *)
Inductive result (A : Type) : Type :=
  | Ok (a : A)
  | Raise (e : string).
Arguments Ok {A} a.
Arguments Raise {A} e.

(** What [json.loads] produces: [None], [bool], [int], [str], [list] and
    [dict] (insertion-ordered, as an association list). Floats are left
    out. The same type stands for the Python objects that flow from tool
    arguments into the agent ([JNull] is [None]). *)
Inductive json : Type :=
  | JNull
  | JBool (b : bool)
  | JNum (n : Z)
  | JStr (s : string)
  | JArr (l : list json)
  | JObj (kv : list (string * json)).

(** The newline and the double quote, as one-character strings. *)
Definition nl : string := String (ascii_of_nat 10) EmptyString.
Definition dq : string := String (ascii_of_nat 34) EmptyString.

(** [bool(v)]: Python truthiness. *)
Definition truthy (v : json) : bool :=
  match v with
  | JNull => false
  | JBool b => b
  | JNum n => negb (n =? 0)
  | JStr s => negb (String.eqb s "")
  | JArr l => match l with [] => false | _ => true end
  | JObj kv => match kv with [] => false | _ => true end
  end.

(** Truthiness of an [Optional[str]]. *)
Definition truthy_str (o : option string) : bool :=
  match o with
  | Some s => negb (String.eqb s "")
  | None => false
  end.

(** Truthiness of an [Optional[List]]. *)
Definition truthy_list {A : Type} (o : option (list A)) : bool :=
  match o with
  | Some (_ :: _) => true
  | _ => false
  end.

Fixpoint assoc (k : string) (kv : list (string * json)) : option json :=
  match kv with
  | [] => None
  | (k', v) :: kv' => if String.eqb k k' then Some v else assoc k kv'
  end.

Definition type_name (v : json) : string :=
  match v with
  | JNull => "NoneType"
  | JBool _ => "bool"
  | JNum _ => "int"
  | JStr _ => "str"
  | JArr _ => "list"
  | JObj _ => "dict"
  end.

(** [d.get(k, default)]: only a [dict] has the method; on anything else
    the attribute lookup raises [AttributeError]. *)
Definition get_default (d : json) (k : string) (default : json) : result json :=
  match d with
  | JObj kv => Ok (match assoc k kv with Some v => v | None => default end)
  | _ => Raise ("'" ++ type_name d ++ "' object has no attribute 'get'")
  end.

(** [d.get(k)]. *)
Definition get (d : json) (k : string) : result json :=
  get_default d k JNull.

(** [s.startswith(p)]. *)
Definition startswith (s p : string) : bool := String.prefix p s.

(** [p in s] for two strings: [p] occurs in [s] at some offset. *)
Fixpoint contains (p s : string) : bool :=
  String.prefix p s ||
  match s with
  | EmptyString => false
  | String _ s' => contains p s'
  end.

(** [s.replace(old, new)] for a non-empty [old]: the occurrences of [old]
    are taken from the left and do not overlap; [skip] counts the
    characters of a match that are still to be dropped. *)
Fixpoint replace_from (old new s : string) (skip : nat) : string :=
  match s with
  | EmptyString => EmptyString
  | String c s' =>
      match skip with
      | S k => replace_from old new s' k
      | O =>
          if String.prefix old s
          then new ++ replace_from old new s' (String.length old - 1)
          else String c (replace_from old new s' 0)
      end
  end.

Definition replace (s old new : string) : string := replace_from old new s 0.

(** [x in v] with [x] a string and [v] any object: substring test on a
    [str], membership on a [list], key membership on a [dict], and a
    [TypeError] on what is not iterable. *)
Definition str_in (x : string) (v : json) : result bool :=
  match v with
  | JStr s => Ok (contains x s)
  | JArr l =>
      Ok (existsb (fun e => match e with JStr s => String.eqb s x | _ => false end) l)
  | JObj kv => Ok (existsb (fun p => String.eqb (fst p) x) kv)
  | _ => Raise ("argument of type '" ++ type_name v ++ "' is not iterable")
  end.

End Py.

Export Py.

(** ** The session store ([core/project_session.py]) *)

Module ProjectSession.

(** One session record, with the keys [create_session] writes. *)
Record Session : Type := mkSession {
  session_id : string;
  project_name : string;
  project_path : string;
  created_at : string;
  updated_at : string;
  initial_prompt : string;
  prompts : list string;
  files_created : list string;
  commands_executed : list string;
  status : string;
  iterations : Z
}.

(** A file [<session_id>.json] of the session directory: either it holds
    a record, or [json.load] fails on it. *)
Inductive SessionFile : Type :=
  | Stored (s : Session)
  | Corrupt.

(** The [ProjectSession] object: the session directory, keyed by session
    id, and [self.current_session]. Writing a file is taken to succeed. *)
Record Store : Type := mkStore {
  session_dir : gmap string SessionFile;
  current_session : option Session
}.

(** [list(set(l))]: the distinct elements of [l], in the order the set
    yields them, which Python leaves unspecified. *)
Definition list_set (l : list string) : list string :=
  elements (list_to_set l : gset string).

Definition _save_session (sid : string) (session_data : Session) (st : Store) : Store :=
  {| session_dir := <[sid := Stored session_data]> (session_dir st);
     current_session := current_session st |}.

(** [create_session]: [stamp] is [datetime.now().strftime('%Y%m%d_%H%M%S')],
    [created] and [updated] the two [datetime.now().isoformat()]. *)
Definition create_session (project_name project_path initial_prompt : string)
    (stamp created updated : string) (st : Store) : string * Store :=
  let session_id := project_name ++ "_" ++ stamp in
  let session_data :=
    {| session_id := session_id;
       project_name := project_name;
       project_path := project_path;
       created_at := created;
       updated_at := updated;
       initial_prompt := initial_prompt;
       prompts := [initial_prompt];
       files_created := [];
       commands_executed := [];
       status := "active";
       iterations := 0 |} in
  let st := _save_session session_id session_data st in
  (session_id, {| session_dir := session_dir st;
                  current_session := Some session_data |}).

Definition load_session (sid : string) (st : Store) : option Session * Store :=
  match session_dir st !! sid with
  | None => (None, st)
  | Some Corrupt => (None, st)
  | Some (Stored session_data) =>
      (Some session_data,
       {| session_dir := session_dir st; current_session := Some session_data |})
  end.

(** The arguments of one [update_session] call after [session_id]. *)
Record Update : Type := mkUpdate {
  new_prompt : option string;
  new_files_created : option (list string);
  new_commands_executed : option (list string);
  new_status : option string;
  new_iterations : option Z
}.

(** The record [update_session] writes back, from the one it loaded:
    each key is rewritten only under the guard the source tests. *)
Definition updated (u : Update) (now : string) (d : Session) : Session :=
  {| session_id := session_id d;
     project_name := project_name d;
     project_path := project_path d;
     created_at := created_at d;
     updated_at := now;
     initial_prompt := initial_prompt d;
     prompts :=
       if truthy_str (new_prompt u)
       then prompts d ++ [default "" (new_prompt u)]
       else prompts d;
     files_created :=
       if truthy_list (new_files_created u)
       then list_set (files_created d ++ default [] (new_files_created u))
       else files_created d;
     commands_executed :=
       if truthy_list (new_commands_executed u)
       then commands_executed d ++ default [] (new_commands_executed u)
       else commands_executed d;
     status :=
       if truthy_str (new_status u)
       then default "" (new_status u)
       else status d;
     iterations :=
       match new_iterations u with
       | Some n => n
       | None => iterations d
       end |}.

(** [update_session]: [now] is [datetime.now().isoformat()]. A session
    that does not load is left alone. *)
Definition update_session (sid : string) (u : Update) (now : string)
    (st : Store) : Store :=
  match load_session sid st with
  | (None, st) => st
  | (Some session_data, st) =>
      let session_data := updated u now session_data in
      let st := _save_session sid session_data st in
      {| session_dir := session_dir st; current_session := Some session_data |}
  end.

Definition rule : string :=
  "━━━━━━━━━━━━━━━━━━━━━━━━━━━━━━━━━━━━━━━━━━━━━━━━━━".

(** [f"{i+1}. {prompt}" for i, prompt in enumerate(prompts)], from [i]. *)
Fixpoint numbered (i : Z) (prompts : list string) : list string :=
  match prompts with
  | [] => []
  | prompt :: rest => (pretty (i + 1) ++ ". " ++ prompt) :: numbered (i + 1) rest
  end.

(** [l[-10:]]. *)
Definition last10 (l : list string) : list string :=
  drop (length l - 10)%nat l.

(** [get_session_context]: the block of text a resumed run prepends to
    its system prompt; the empty string when the session does not load. *)
Definition get_session_context (sid : string) (st : Store) : string * Store :=
  match load_session sid st with
  | (None, st) => ("", st)
  | (Some d, st) =>
      let n := length (files_created d) in
      (String.concat nl [
         "";
         "CONTINUING PROJECT SESSION: " ++ project_name d;
         rule;
         "";
         "Project Path: " ++ project_path d;
         "Created: " ++ created_at d;
         "Last Updated: " ++ updated_at d;
         "Status: " ++ status d;
         "Total Iterations: " ++ pretty (iterations d);
         "";
         "PREVIOUS PROMPTS:";
         String.concat nl (numbered 0 (prompts d));
         "";
         "FILES CREATED (" ++ pretty (Z.of_nat n) ++ "):";
         String.concat nl (map (fun file => "  - " ++ file) (take 20 (files_created d)));
         (if (20 <? n)%nat
          then "  ... and " ++ pretty (Z.of_nat n - 20) ++ " more"
          else "");
         "";
         "RECENT COMMANDS (" ++ pretty (Z.of_nat (length (commands_executed d))) ++ "):";
         String.concat nl (map (fun cmd => "  $ " ++ cmd) (last10 (commands_executed d)));
         "";
         rule;
         "";
         "You are CONTINUING to work on this project. Remember what you've built.";
         "The user wants to make changes or improvements to the existing project.";
         ""
       ], st)
  end.

(** The stored record of a session id, when it loads. *)
Definition stored (sid : string) (st : Store) : option Session :=
  fst (load_session sid st).



(** An [update_session] call that supplies [new_prompt] only. *)
Definition only_prompt (p : string) : Update :=
  mkUpdate (Some p) None None None None.


(** A store holding one session, created at [20240101_120000]. *)
Definition demo_store : Store :=
  snd (create_session "demo" "generated_projects/demo" "build it"
         "20240101_120000" "2024-01-01T12:00:00" "2024-01-01T12:00:00"
         (mkStore ∅ None)).

Definition demo_id : string := "demo_20240101_120000".

(** [mark_complete] and [mark_failed]: [now] is the
    [datetime.now().isoformat()] of the [update_session] call. *)
Definition mark_complete (sid now : string) (st : Store) : Store :=
  update_session sid (mkUpdate None None None (Some "complete") None) now st.

Definition mark_failed (sid now : string) (st : Store) : Store :=
  update_session sid (mkUpdate None None None (Some "failed") None) now st.

(** One entry of the list [list_sessions] returns. *)
Record Summary : Type := mkSummary {
  summary_session_id : string;
  summary_project_name : string;
  summary_project_path : string;
  summary_created_at : string;
  summary_updated_at : string;
  summary_status : string;
  prompts_count : nat;
  files_count : nat
}.

Definition summary (d : Session) : Summary :=
  {| summary_session_id := session_id d;
     summary_project_name := project_name d;
     summary_project_path := project_path d;
     summary_created_at := created_at d;
     summary_updated_at := updated_at d;
     summary_status := status d;
     prompts_count := length (prompts d);
     files_count := length (files_created d) |}.

(** [self.session_dir.glob("*.json")]: the files of the directory, in an
    order the file system chooses. *)
Definition glob (st : Store) : list (string * SessionFile) :=
  map_to_list (session_dir st).

(** [sessions.sort(key=lambda x: x["updated_at"], reverse=True)]: the
    keys are compared as strings; the sort is stable, so entries with
    equal keys keep the order they were appended in. *)
Fixpoint insert_by_updated_at (x : Summary) (l : list Summary) : list Summary :=
  match l with
  | [] => [x]
  | y :: l' =>
      if String.ltb (summary_updated_at x) (summary_updated_at y)
      then y :: insert_by_updated_at x l'
      else x :: y :: l'
  end.

Definition sort_by_updated_at (l : list Summary) : list Summary :=
  foldr insert_by_updated_at [] l.

(** The body of the [for] of [list_sessions]: a file that does not parse
    is logged and skipped. *)
Definition listed (status : option string) (file : string * SessionFile)
    : option Summary :=
  match snd file with
  | Corrupt => None
  | Stored session_data =>
      if match status with
         | None => true
         | Some wanted => String.eqb (ProjectSession.status session_data) wanted
         end
      then Some (summary session_data)
      else None
  end.

Definition list_sessions (status : option string) (st : Store) : list Summary :=
  sort_by_updated_at (omap (listed status) (glob st)).

(** [a] was updated no earlier than [b], by the order of their
    [updated_at] strings. *)
Definition most_recent_first (a b : Summary) : Prop :=
  String.leb (summary_updated_at b) (summary_updated_at a) = true.

End ProjectSession.

(** ** The autonomous agent ([core/autonomous_agent.py]) *)

Module AutonomousAgent.

(** One entry of [assistant_message.tool_calls]: [tc.id], [tc.type],
    [tc.function.name] and [tc.function.arguments] (JSON text). *)
Record ToolCall : Type := mkToolCall {
  tc_id : string;
  tc_type : string;
  tc_name : string;
  tc_arguments : string
}.

(** [response.choices[0].message]. *)
Record AssistantMessage : Type := mkAssistantMessage {
  content : option string;
  tool_calls : option (list ToolCall)
}.

(** One entry of [self.conversation_history]. *)
Inductive Turn : Type :=
  | System (content : string)
  | User (content : string)
  | Assistant (content : option string) (tool_calls : option (list ToolCall))
  | Tool (tool_call_id : string) (content : string).

(** The dict [BrowserTester.check_webapp_console] returns, with the keys
    [check_browser_console] reads. *)
Record BrowserResult : Type := mkBrowserResult {
  br_success : bool;
  br_error : option string;
  br_title : option string;
  br_screenshot : option string;
  br_has_errors : bool;
  br_console_errors : list string;
  br_console_warnings : list string;
  br_network_errors : list (string * string)
}.

(** The pure library functions the agent calls: the [json] codec,
    [str()] of an object inside an f-string, and [pathlib]'s [parent] and
    [name]. *)
Class Library : Type := {
  json_loads : string -> result json;
  json_dumps : json -> string;
  format : json -> string;
  path_parent : string -> string;
  path_name : string -> string
}.

(** The collaborators of the agent, acting on a world [W]: the
    completion service, [TerminalExecutor.execute], the file system
    behind [pathlib], [BrowserTester] and the [ProjectSession] object the
    agent holds. Each may raise. *)
Class Collaborators (W : Type) : Type := {
  (** [AsyncOpenAI(api_key=settings.openai_api_key)] *)
  ensure_client : W -> result unit * W;
  (** [client.chat.completions.create(...)] followed by
      [response.choices[0].message] *)
  chat_completions_create : list Turn -> W -> result AssistantMessage * W;
  (** [terminal.execute(command, use_sudo, cwd, timeout)] *)
  terminal_execute : json -> json -> json -> Z -> W -> result (Z * string * string) * W;
  (** [Path(p).mkdir(parents=True, exist_ok=True)] *)
  fs_mkdir : string -> W -> result unit * W;
  (** [Path(p).write_text(content)] *)
  fs_write_text : string -> json -> W -> result unit * W;
  (** [Path(p).read_text()] *)
  fs_read_text : string -> W -> result string * W;
  (** [list(Path(p).iterdir())] as pairs of [item.name], [item.is_dir()] *)
  fs_iterdir : string -> W -> result (list (string * bool)) * W;
  (** [browser_tester.check_webapp_console(url, wait_time)] *)
  check_webapp_console : json -> json -> W -> result BrowserResult * W;
  (** [project_session.get_session_context(session_id)] *)
  get_session_context : string -> W -> result string * W;
  (** [project_session.create_session(project_name, project_path, initial_prompt)] *)
  create_session : string -> string -> string -> W -> result string * W;
  (** [project_session.update_session(session_id, files_created,
      commands_executed, status, iterations)] *)
  update_session : string -> list json -> list json -> string -> Z -> W -> result unit * W
}.

(** The agent object, the [logger.info] lines [_execute_tool] writes on
    entry, and the world. *)
Record State (W : Type) : Type := mkState {
  session_id : string;
  max_iterations : Z;
  project_session_id : option string;
  conversation_history : list Turn;
  files_created : list json;
  commands_executed : list json;
  executing_tool_log : list (string * json);
  world : W
}.
Arguments mkState {W}.
Arguments session_id {W}.
Arguments max_iterations {W}.
Arguments project_session_id {W}.
Arguments conversation_history {W}.
Arguments files_created {W}.
Arguments commands_executed {W}.
Arguments executing_tool_log {W}.
Arguments world {W}.

(** [AutonomousAgent.__init__]. *)
Definition __init__ {W : Type} (session_id : string) (max_iterations : Z)
    (project_session_id : option string) (w : W) : State W :=
  {| session_id := session_id;
     max_iterations := max_iterations;
     project_session_id := project_session_id;
     conversation_history := [];
     files_created := [];
     commands_executed := [];
     executing_tool_log := [];
     world := w |}.

(** The reserved prefix of a [task_complete] result. *)
Definition SENTINEL : string := "TASK_COMPLETE:".

Section Agent.

Context {W : Type} `{Library} `{Collaborators W}.

(** *** A state and exception monad over the agent and its world *)

Definition M (A : Type) : Type := State W -> result A * State W.

Definition ret {A : Type} (a : A) : M A := fun s => (Ok a, s).

Definition bind {A B : Type} (m : M A) (k : A -> M B) : M B :=
  fun s =>
    match m s with
    | (Ok a, s') => k a s'
    | (Raise e, s') => (Raise e, s')
    end.

(** [try: m except Exception as e: handler(str(e))]. *)
Definition try_except {A : Type} (m : M A) (handler : string -> M A) : M A :=
  fun s =>
    match m s with
    | (Ok a, s') => (Ok a, s')
    | (Raise e, s') => handler e s'
    end.

Definition lift {A : Type} (r : result A) : M A := fun s => (r, s).

Definition with_world (s : State W) (w : W) : State W :=
  mkState (session_id s) (max_iterations s) (project_session_id s)
    (conversation_history s) (files_created s) (commands_executed s)
    (executing_tool_log s) w.

(** A collaborator call: it acts on the world only. *)
Definition call {A : Type} (f : W -> result A * W) : M A :=
  fun s => let (r, w) := f (world s) in (r, with_world s w).

Notation "x <- m ;; k" := (bind m (fun x => k))
  (at level 100, m at next level, right associativity).
Notation "m ;;; k" := (bind m (fun _ => k))
  (at level 100, right associativity).

(** [self.conversation_history.append(t)]. *)
Definition append_history (t : Turn) : M unit :=
  fun s =>
    (Ok tt, mkState (session_id s) (max_iterations s) (project_session_id s)
              (conversation_history s ++ [t]) (files_created s)
              (commands_executed s) (executing_tool_log s) (world s)).

(** [self.conversation_history = h]. *)
Definition set_history (h : list Turn) : M unit :=
  fun s =>
    (Ok tt, mkState (session_id s) (max_iterations s) (project_session_id s)
              h (files_created s) (commands_executed s)
              (executing_tool_log s) (world s)).

(** [self.files_created.append(v)]. *)
Definition append_files_created (v : json) : M unit :=
  fun s =>
    (Ok tt, mkState (session_id s) (max_iterations s) (project_session_id s)
              (conversation_history s) (files_created s ++ [v])
              (commands_executed s) (executing_tool_log s) (world s)).

(** [self.commands_executed.append(v)]. *)
Definition append_commands_executed (v : json) : M unit :=
  fun s =>
    (Ok tt, mkState (session_id s) (max_iterations s) (project_session_id s)
              (conversation_history s) (files_created s)
              (commands_executed s ++ [v]) (executing_tool_log s) (world s)).

(** [self.project_session_id = v]. *)
Definition set_project_session_id (v : option string) : M unit :=
  fun s =>
    (Ok tt, mkState (session_id s) (max_iterations s) v
              (conversation_history s) (files_created s)
              (commands_executed s) (executing_tool_log s) (world s)).

(** [logger.info(f"Executing tool: {tool_name} with args: {tool_args}")]. *)
Definition log_executing_tool (tool_name : string) (tool_args : json) : M unit :=
  fun s =>
    (Ok tt, mkState (session_id s) (max_iterations s) (project_session_id s)
              (conversation_history s) (files_created s)
              (commands_executed s)
              (executing_tool_log s ++ [(tool_name, tool_args)]) (world s)).

Definition read {A : Type} (f : State W -> A) : M A := fun s => (Ok (f s), s).

(** [Path(v)]: a [TypeError] unless [v] is a [str]. *)
Definition Path (v : json) : result string :=
  match v with
  | JStr p => Ok p
  | _ => Raise ("expected str, bytes or os.PathLike object, not " ++ type_name v)
  end.

(** *** The tools *)

Definition execute_command (command use_sudo cwd : json) : M string :=
  try_except
    (npm <- lift (str_in "npm" command) ;;
     long <- (if npm : bool then ret true else
              npx <- lift (str_in "npx" command) ;;
              if npx : bool then ret true else lift (str_in "install" command)) ;;
     let timeout := if long : bool then 600 else 60 in
     r <- call (terminal_execute command use_sudo cwd timeout) ;;
     let '(exit_code, stdout, stderr) := r in
     let result := "Exit code: " ++ pretty exit_code ++ nl in
     let result := if String.eqb stdout "" then result
                   else result ++ "STDOUT:" ++ nl ++ stdout ++ nl in
     let result := if String.eqb stderr "" then result
                   else result ++ "STDERR:" ++ nl ++ stderr ++ nl in
     ret result)
    (fun e => ret ("Error executing command: " ++ e)).

Definition create_file (file_path content : json) : M string :=
  try_except
    (path <- lift (Path file_path) ;;
     call (fs_mkdir (path_parent path)) ;;;
     call (fs_write_text path content) ;;;
     ret ("Successfully created file: " ++ path))
    (fun e => ret ("Error creating file: " ++ e)).

Definition read_file (file_path : json) : M string :=
  try_except
    (path <- lift (Path file_path) ;;
     content <- call (fs_read_text path) ;;
     ret content)
    (fun e => ret ("Error reading file: " ++ e)).

Definition create_directory (directory_path : json) : M string :=
  try_except
    (path <- lift (Path directory_path) ;;
     call (fs_mkdir path) ;;;
     ret ("Successfully created directory: " ++ path))
    (fun e => ret ("Error creating directory: " ++ e)).

Definition list_directory (directory_path : json) : M string :=
  try_except
    (path <- lift (Path directory_path) ;;
     items <- call (fs_iterdir path) ;;
     ret (fold_left
            (fun result item =>
               result ++ "  [" ++ (if snd item : bool then "DIR" else "FILE")
                      ++ "] " ++ fst item ++ nl)
            items ("Contents of " ++ path ++ ":" ++ nl)))
    (fun e => ret ("Error listing directory: " ++ e)).

Definition bullets (lines : list string) (response : string) : string :=
  fold_left (fun r line => r ++ "  - " ++ line ++ nl) lines response.

Definition check_browser_console (url wait_time : json) : M string :=
  try_except
    (result <- call (check_webapp_console url wait_time) ;;
     if negb (br_success result)
     then ret ("Failed to test: " ++ default "Unknown error" (br_error result))
     else
       let response := "Browser Test Results for " ++ format url ++ ":" ++ nl in
       let response := response ++ "Title: " ++ default "N/A" (br_title result) ++ nl in
       let response :=
         response ++ "Screenshot: " ++ default "N/A" (br_screenshot result) ++ nl ++ nl in
       if br_has_errors result
       then
         let response := response ++ "❌ ERRORS FOUND:" ++ nl in
         let response := bullets (br_console_errors result) response in
         let response :=
           match br_console_warnings result with
           | [] => response
           | ws => bullets ws (response ++ nl ++ "⚠️ WARNINGS:" ++ nl)
           end in
         let response :=
           match br_network_errors result with
           | [] => response
           | es => bullets (map (fun e => fst e ++ ": " ++ snd e) es)
                     (response ++ nl ++ "🌐 NETWORK ERRORS:" ++ nl)
           end in
         ret (response ++ nl ++ "FIX THESE ERRORS and test again!")
       else
         let response :=
           response ++ "✅ NO ERRORS! The web app is working perfectly!" ++ nl in
         match br_console_warnings result with
         | [] => ret response
         | ws => ret (response ++ nl ++ "⚠️ "
                        ++ pretty (Z.of_nat (length ws))
                        ++ " warnings (non-critical)" ++ nl)
         end)
    (fun e => ret ("Error checking browser: " ++ e)).

(** *** The dispatcher *)

(** The first chain of [_execute_tool]: what is printed to the console
    (each [tool_args.get] still runs) and the two per-agent lists. *)
Definition announce (tool_name : string) (tool_args : json) : M unit :=
  if String.eqb tool_name "create_file" then
    v <- lift (get tool_args "file_path") ;;
    v' <- lift (get tool_args "file_path") ;;
    append_files_created v'
  else if String.eqb tool_name "execute_command" then
    v <- lift (get tool_args "command") ;;
    v' <- lift (get tool_args "command") ;;
    append_commands_executed v'
  else if String.eqb tool_name "create_directory" then
    v <- lift (get tool_args "directory_path") ;; ret tt
  else if String.eqb tool_name "check_browser_console" then
    v <- lift (get tool_args "url") ;; ret tt
  else if String.eqb tool_name "read_file" then
    v <- lift (get tool_args "file_path") ;; ret tt
  else ret tt.

Definition _execute_tool (tool_name : string) (tool_args : json) : M string :=
  log_executing_tool tool_name tool_args ;;;
  announce tool_name tool_args ;;;
  if String.eqb tool_name "execute_command" then
    command <- lift (get tool_args "command") ;;
    use_sudo <- lift (get_default tool_args "use_sudo" (JBool false)) ;;
    cwd <- lift (get tool_args "cwd") ;;
    execute_command command use_sudo cwd
  else if String.eqb tool_name "create_file" then
    file_path <- lift (get tool_args "file_path") ;;
    content <- lift (get tool_args "content") ;;
    create_file file_path content
  else if String.eqb tool_name "read_file" then
    file_path <- lift (get tool_args "file_path") ;;
    read_file file_path
  else if String.eqb tool_name "create_directory" then
    directory_path <- lift (get tool_args "directory_path") ;;
    create_directory directory_path
  else if String.eqb tool_name "list_directory" then
    directory_path <- lift (get tool_args "directory_path") ;;
    list_directory directory_path
  else if String.eqb tool_name "check_browser_console" then
    url <- lift (get tool_args "url") ;;
    wait_time <- lift (get_default tool_args "wait_time" (JNum 5)) ;;
    check_browser_console url wait_time
  else if String.eqb tool_name "task_complete" then
    ret (SENTINEL ++ json_dumps tool_args)
  else
    ret ("Unknown tool: " ++ tool_name).

(** *** The loop controller *)

Definition _get_system_prompt : string :=
  String.concat nl [
    "You are an autonomous AI agent. You MUST use function calls to perform ALL actions.";
    "";
    "🚨 CRITICAL: You are FORCED to use functions. You CANNOT write explanations or markdown.";
    "";
    "🔧 AVAILABLE FUNCTIONS:";
    "- create_directory(directory_path)";
    "- create_file(file_path, content)";
    "- execute_command(command, cwd)";
    "- check_browser_console(url)";
    "- task_complete(summary, project_path)";
    "";
    "❌ WRONG - DO NOT DO THIS:";
    "```python";
    "execute_command(command=" ++ dq ++ "pip install paramiko" ++ dq ++ ")";
    "```";
    "Explanation: " ++ dq ++ "First, I'll install..." ++ dq;
    "";
    "✅ CORRECT - YOU MUST DO THIS:";
    "Just call the function. No text. No markdown. No explanations.";
    "";
    "🎯 WORKFLOW EXAMPLE (SSH Script Task):";
    "1. create_directory(" ++ dq ++ "generated_projects/ssh-script" ++ dq ++ ")";
    "2. create_file(" ++ dq ++ "generated_projects/ssh-script/ssh_connect.py" ++ dq
      ++ ", " ++ dq ++ "import paramiko..." ++ dq ++ ")";
    "3. create_file(" ++ dq ++ "generated_projects/ssh-script/requirements.txt" ++ dq
      ++ ", " ++ dq ++ "paramiko" ++ dq ++ ")";
    "4. execute_command(" ++ dq ++ "pip install -r requirements.txt" ++ dq
      ++ ", " ++ dq ++ "generated_projects/ssh-script" ++ dq ++ ")";
    "5. task_complete(" ++ dq ++ "SSH script created" ++ dq
      ++ ", " ++ dq ++ "generated_projects/ssh-script" ++ dq ++ ")";
    "";
    "💎 QUALITY: Create 10-15 files minimum with complete, professional implementations.";
    "";
    "Remember: You can ONLY communicate through function calls. Start working immediately."
  ].

(** The user-role message appended when a response has no tool call. *)
Definition reminder : string :=
  "❌ STOP! You MUST call the actual functions NOW. DO NOT write markdown code blocks. "
  ++ "Use create_directory, create_file, execute_command functions. "
  ++ "Start with: create_directory, then create_file for EACH file with FULL content (15+ files). "
  ++ "NO MORE TEXT. ONLY FUNCTION CALLS.".

(** A Python [dict] literal handed back to the caller. *)
Definition dict (kv : list (string * json)) : gmap string json := list_to_map kv.

Definition of_optional (o : option string) : json :=
  match o with
  | Some s => JStr s
  | None => JNull
  end.

(** The body of [for tool_call in assistant_message.tool_calls], on the
    pair [(task_complete, completion_info)]. *)
Definition for_tool_call (tool_call : ToolCall) (v : bool * json) : M (bool * json) :=
  tool_args <- lift (json_loads (tc_arguments tool_call)) ;;
  tool_result <- _execute_tool (tc_name tool_call) tool_args ;;
  v <- (if startswith tool_result SENTINEL
        then
          completion_info <- lift (json_loads (replace tool_result SENTINEL "")) ;;
          ret (true, completion_info)
        else ret v) ;;
  append_history (Tool (tc_id tool_call) tool_result) ;;;
  ret v.

Fixpoint for_tool_calls (tool_calls : list ToolCall) (v : bool * json) : M (bool * json) :=
  match tool_calls with
  | [] => ret v
  | tool_call :: rest =>
      v <- for_tool_call tool_call v ;;
      for_tool_calls rest v
  end.

(** How the body of the [while] leaves: to the next test of the loop
    condition (by falling through or by [continue]), or by [break]. *)
Inductive Flow : Type :=
  | Next
  | Break.

(** The [try] block of one iteration, [iteration] already incremented. *)
Definition iteration_body (iteration : Z) (v : bool * json) : M (Flow * (bool * json)) :=
  messages <- read conversation_history ;;
  assistant_message <- call (chat_completions_create messages) ;;
  let calls :=
    match tool_calls assistant_message with
    | Some (tc :: tcs) => Some (tc :: tcs)
    | _ => None
    end in
  append_history (Assistant (content assistant_message) calls) ;;;
  match calls with
  | Some tcs =>
      v <- for_tool_calls tcs v ;;
      ret (Next, v)
  | None =>
      if (iteration =? 1) && truthy_str (content assistant_message)
      then ret (Break, v)
      else
        append_history (User reminder) ;;;
        max <- read max_iterations ;;
        if iteration <? max then ret (Next, v) else ret (Break, v)
  end.

(** How the [while] statement ends: the loop is left with its three
    variables, or the [except] clause returned its dict. *)
Inductive LoopEnd : Type :=
  | Exited (iteration : Z) (task_complete : bool) (completion_info : json)
  | Returned (outcome : gmap string json).

(** [while iteration < self.max_iterations and not task_complete]. The
    recursion is on [fuel]; [None] is the loop asking for more of it. *)
Fixpoint while_loop (fuel : nat) (iteration : Z) (task_complete : bool)
    (completion_info : json) (s : State W) : option (LoopEnd * State W) :=
  if (iteration <? max_iterations s) && negb task_complete then
    match fuel with
    | O => None
    | S fuel =>
        let iteration := iteration + 1 in
        match iteration_body iteration (task_complete, completion_info) s with
        | (Ok (Next, (task_complete, completion_info)), s) =>
            while_loop fuel iteration task_complete completion_info s
        | (Ok (Break, (task_complete, completion_info)), s) =>
            Some (Exited iteration task_complete completion_info, s)
        | (Raise e, s) =>
            Some (Returned (dict [("success", JBool false);
                                  ("error", JStr e);
                                  ("iterations", JNum iteration);
                                  ("session_id", of_optional (project_session_id s))]),
                  s)
        end
    end
  else Some (Exited iteration task_complete completion_info, s).

(** What precedes the loop. *)
Definition start_conversation (task : string) (continue_session : bool) : M unit :=
  call ensure_client ;;;
  project_session_id <- read project_session_id ;;
  session_context <-
    (if continue_session && truthy_str project_session_id
     then call (get_session_context (default "" project_session_id))
     else ret "") ;;
  let system_content := _get_system_prompt in
  let system_content :=
    if String.eqb session_context "" then system_content
    else system_content ++ nl ++ nl ++ session_context in
  set_history [System system_content; User task].

(** "Save or update session", after the loop. *)
Definition save_session (task : string) (iteration : Z) (task_complete : bool)
    (completion_info : json) : M unit :=
  reported <-
    (if task_complete
     then project_path <- lift (get completion_info "project_path") ;;
          ret (truthy project_path)
     else ret false) ;;
  if reported : bool then
    current <- read project_session_id ;;
    (if negb (truthy_str current)
     then
       project_path <- lift (get completion_info "project_path") ;;
       path <- lift (Path project_path) ;;
       let project_name := path_name path in
       new_id <- call (create_session project_name path task) ;;
       set_project_session_id (Some new_id)
     else ret tt) ;;;
    current <- read project_session_id ;;
    files <- read files_created ;;
    commands <- read commands_executed ;;
    call (update_session (default "" current) files commands
            (if task_complete then "complete" else "in_progress") iteration)
  else ret tt.

(** The dict built after the loop. *)
Definition final_result (iteration : Z) (task_complete : bool)
    (completion_info : json) : M (gmap string json) :=
  summary <- lift (get_default completion_info "summary" (JStr "Task completed")) ;;
  project_path <- lift (get completion_info "project_path") ;;
  max <- read max_iterations ;;
  current <- read project_session_id ;;
  files <- read files_created ;;
  commands <- read commands_executed ;;
  ret (dict [("success", JBool task_complete);
             ("summary", summary);
             ("project_path", project_path);
             ("iterations", JNum iteration);
             ("max_iterations_reached", JBool (max <=? iteration));
             ("session_id", of_optional current);
             ("files_created", JNum (Z.of_nat (length files)));
             ("commands_executed", JNum (Z.of_nat (length commands)))]).

(** [execute_autonomous_task(task, continue_session)]: the dict returned
    or the exception raised, with the state left behind. The loop gets
    [max_iterations] units of fuel. *)
Definition execute_autonomous_task (task : string) (continue_session : bool)
    (s : State W) : option (result (gmap string json) * State W) :=
  match start_conversation task continue_session s with
  | (Raise e, s) => Some (Raise e, s)
  | (Ok _, s) =>
      match while_loop (Z.to_nat (max_iterations s)) 0 false (JObj []) s with
      | None => None
      | Some (Returned outcome, s) => Some (Ok outcome, s)
      | Some (Exited iteration task_complete completion_info, s) =>
          Some ((save_session task iteration task_complete completion_info ;;;
                 final_result iteration task_complete completion_info) s)
      end
  end.

(** *** What the properties observe *)

(** A computation whose every run, returning or raising, takes the state
    along [R]. *)
Definition stable {A : Type} (R : State W -> State W -> Prop) (m : M A) : Prop :=
  forall s, R s (snd (m s)).

(** Nothing but the world changes. *)
Definition world_step (s s' : State W) : Prop :=
  exists w, s' = with_world s w.

(** Nothing but the world and [self.project_session_id] changes. *)
Definition session_step (s s' : State W) : Prop :=
  exists p w,
    s' = mkState (session_id s) (max_iterations s) p (conversation_history s)
           (files_created s) (commands_executed s) (executing_tool_log s) w.

(** The two lists agree with the log of dispatches: one entry per
    [create_file] and per [execute_command] dispatched. *)
Definition counted (s : State W) : Prop :=
  length (files_created s)
    = length (List.filter (fun e => String.eqb (fst e) "create_file")
                (executing_tool_log s)) /\
  length (commands_executed s)
    = length (List.filter (fun e => String.eqb (fst e) "execute_command")
                (executing_tool_log s)).


(** What a dispatch of [tool_name] appends to the list that records
    [tool]: the value under [key], when [tool_args] is a dict. *)
Definition recorded (key tool tool_name : string) (tool_args : json) : list json :=
  if String.eqb tool_name tool then
    match get tool_args key with
    | Ok v => [v]
    | Raise _ => []
    end
  else [].

(** The agent after one dispatch that left the world as [w]. *)
Definition dispatched (s : State W) (tool_name : string) (tool_args : json) (w : W)
    : State W :=
  mkState (session_id s) (max_iterations s) (project_session_id s)
    (conversation_history s)
    (files_created s ++ recorded "file_path" "create_file" tool_name tool_args)
    (commands_executed s ++ recorded "command" "execute_command" tool_name tool_args)
    (executing_tool_log s ++ [(tool_name, tool_args)])
    w.

(** The agent after [turns] were appended to the conversation. *)
Definition extended (s : State W) (turns : list Turn) : State W :=
  mkState (session_id s) (max_iterations s) (project_session_id s)
    (conversation_history s ++ turns) (files_created s)
    (commands_executed s) (executing_tool_log s) (world s).

(** A tool-result turn whose text starts with the sentinel. *)
Definition carries_sentinel (t : Turn) : bool :=
  match t with
  | Tool _ text => startswith text SENTINEL
  | _ => false
  end.

(** The payload the controller reads from a sentinel-carrying result. *)
Definition payload (tool_result : string) : result json :=
  json_loads (replace tool_result SENTINEL "").

(** The pair [(task_complete, completion_info)] after a tool result
    whose payload, if it carries the sentinel, parses. *)
Definition absorb (v : bool * json) (tool_result : string) : bool * json :=
  if startswith tool_result SENTINEL
  then match payload tool_result with
       | Ok completion_info => (true, completion_info)
       | Raise _ => v
       end
  else v.

(** The tool-result turns of a batch, call by call. *)
Definition tool_turns (tool_calls : list ToolCall) (results : list string) : list Turn :=
  zip_with (fun tc r => Tool (tc_id tc) r) tool_calls results.

(** A finished conversation that is a question asked at the first
    response: the two opening turns and one assistant turn with text and
    no tool call. *)
Definition asked_question (history : list Turn) : bool :=
  match history with
  | [System _; User _; Assistant (Some text) None] => negb (String.eqb text "")
  | _ => false
  end.

(** The dispatches of [tool] in a log of [_execute_tool] entries. *)
Definition dispatches (tool : string) (log : list (string * json)) : nat :=
  length (List.filter (fun e => String.eqb (fst e) tool) log).



(** The dict the [except] clause of the loop returns. *)
Definition error_outcome (e : string) (iteration : Z) (s : State W)
    : gmap string json :=
  dict [("success", JBool false);
        ("error", JStr e);
        ("iterations", JNum iteration);
        ("session_id", of_optional (project_session_id s))].

End Agent.

(** *** Shapes of a conversation *)

(** The ids of the tool calls that still wait for their result after the
    turns of [history], [pending] being those that waited before it:
    results come in the order of the calls, and no turn of another role
    comes while a call waits. [None] when [history] breaks that. *)
Fixpoint unanswered (pending : list string) (history : list Turn)
    : option (list string) :=
  match history with
  | [] => Some pending
  | Tool id _ :: rest =>
      match pending with
      | id' :: pending' =>
          if String.eqb id id' then unanswered pending' rest else None
      | [] => None
      end
  | Assistant _ calls :: rest =>
      match pending with
      | [] => unanswered (map tc_id (default [] calls)) rest
      | _ :: _ => None
      end
  | _ :: rest =>
      match pending with
      | [] => unanswered [] rest
      | _ :: _ => None
      end
  end.

(** From [s] to [s'] the agent keeps its identity and its cap, and its
    two lists and its log have only grown at their end. *)
Definition grown {W : Type} (s s' : State W) : Prop :=
  session_id s' = session_id s /\
  max_iterations s' = max_iterations s /\
  files_created s `prefix_of` files_created s' /\
  commands_executed s `prefix_of` commands_executed s' /\
  executing_tool_log s `prefix_of` executing_tool_log s'.

(** The assistant turns of a conversation: one per response of the
    completion service. *)
Definition assistant_turns (history : list Turn) : nat :=
  length (List.filter (fun t => match t with
                                | Assistant _ _ => true
                                | _ => false
                                end) history).

(** The timeout [execute_command] asks for. *)
Definition command_timeout (command : string) : Z :=
  if contains "npm" command || contains "npx" command || contains "install" command
  then 600 else 60.


End AutonomousAgent.

(** ** The terminal executor ([core/terminal_executor.py]) *)

Module TerminalExecutor.

Import AutonomousAgent.

(** How [asyncio.create_subprocess_shell(command, cwd=cwd)] followed by
    [asyncio.wait_for(process.communicate(), timeout)] ends: the process
    finished in time, with its exit code and its two outputs decoded; the
    wait ran into the timeout (the process is then killed and waited
    for); or one of the calls raised something else. *)
Inductive Waited : Type :=
  | Finished (returncode : Z) (stdout stderr : string)
  | TimedOut
  | Failed (e : string).

(** The operating system's side of [execute], acting on a world [W]. *)
Class Subprocess (W : Type) : Type := {
  communicate : json -> json -> Z -> W -> Waited * W
}.

(** The [TerminalExecutor] object. *)
Record Self : Type := mkSelf {
  os_type : string;
  shell : string
}.

(** [__init__]: [system] is [platform.system().lower()] and [SHELL] is
    [os.environ.get("SHELL")]. *)
Definition __init__ (system : string) (SHELL : option string) : Self :=
  {| os_type := system;
     shell := if String.eqb system "windows" then "cmd.exe"
              else default "/bin/bash" SHELL |}.

Section Executor.

Context {W : Type} `{Library} `{Subprocess W}.

(** [execute(command, use_sudo, timeout, cwd)], with the values the
    caller hands in. *)
Definition execute (self : Self) (command use_sudo cwd : json) (timeout : Z) (w : W)
    : result (Z * string * string) * W :=
  let command :=
    if truthy use_sudo && negb (String.eqb (os_type self) "windows")
    then JStr ("sudo " ++ format command)
    else command in
  match communicate command cwd timeout w with
  | (Finished exit_code stdout stderr, w) => (Ok (exit_code, stdout, stderr), w)
  | (TimedOut, w) =>
      (Raise ("Command timed out after " ++ pretty timeout ++ " seconds"), w)
  | (Failed e, w) => (Raise e, w)
  end.

Definition check_command_exists (self : Self) (command : string) (w : W) : bool * W :=
  let check_cmd :=
    if String.eqb (os_type self) "windows"
    then "where " ++ command
    else "command -v " ++ command in
  match execute self (JStr check_cmd) (JBool false) JNull 5 w with
  | (Ok (exit_code, _, _), w) => (exit_code =? 0, w)
  | (Raise _, w) => (false, w)
  end.

End Executor.

End TerminalExecutor.

(** ** A [json] codec for closed runs

    [dumps] writes what [json.dumps] writes for these trees ([", "] and
    [": "] separators); [loads] reads JSON text back, reporting with
    [Raise] what [json.loads] reports with [JSONDecodeError]. Numbers are
    integers and text is ASCII: a fraction, an exponent or a [\u] escape
    is refused. *)

Module Json.

Definition bs : string := String (ascii_of_nat 92) EmptyString.

Definition escape_char (c : ascii) : string :=
  let n := nat_of_ascii c in
  if (n =? 34)%nat then bs ++ dq
  else if (n =? 92)%nat then bs ++ bs
  else if (n =? 10)%nat then bs ++ "n"
  else if (n =? 13)%nat then bs ++ "r"
  else if (n =? 9)%nat then bs ++ "t"
  else String c EmptyString.

Fixpoint escape (s : string) : string :=
  match s with
  | EmptyString => EmptyString
  | String c s' => escape_char c ++ escape s'
  end.

Definition quote (s : string) : string := dq ++ escape s ++ dq.

Fixpoint dumps (v : json) : string :=
  match v with
  | JNull => "null"
  | JBool true => "true"
  | JBool false => "false"
  | JNum n => pretty n
  | JStr s => quote s
  | JArr l => "[" ++ String.concat ", " (map dumps l) ++ "]"
  | JObj kv =>
      "{" ++ String.concat ", "
               (map (fun p => let '(k, v) := p in quote k ++ ": " ++ dumps v) kv)
          ++ "}"
  end.

Definition is_ws (c : ascii) : bool :=
  let n := nat_of_ascii c in
  ((n =? 32) || (n =? 9) || (n =? 10) || (n =? 13))%nat.

Fixpoint skip_ws (s : string) : string :=
  match s with
  | String c s' => if is_ws c then skip_ws s' else s
  | EmptyString => EmptyString
  end.

Fixpoint sdrop (n : nat) (s : string) : string :=
  match n, s with
  | S n', String _ s' => sdrop n' s'
  | _, _ => s
  end.

Definition digit (c : ascii) : option Z :=
  let n := nat_of_ascii c in
  if ((48 <=? n) && (n <=? 57))%nat then Some (Z.of_nat n - 48) else None.

(** The digits at the head of [s], accumulated in base ten. *)
Fixpoint digits (s : string) (acc : Z) : Z * string :=
  match s with
  | String c s' =>
      match digit c with
      | Some d => digits s' (10 * acc + d)
      | None => (acc, s)
      end
  | EmptyString => (acc, s)
  end.

(** What follows an integer must not turn it into a float. *)
Definition ends_int (s : string) : bool :=
  match s with
  | String c _ =>
      let n := nat_of_ascii c in
      negb ((n =? 46) || (n =? 101) || (n =? 69))%nat
  | EmptyString => true
  end.

(** An unsigned integer without a leading zero. *)
Definition natural (s : string) : option (Z * string) :=
  match s with
  | String c s' =>
      match digit c with
      | Some 0 => if ends_int s' then Some (0, s') else None
      | Some d => let '(n, r) := digits s' d in
                  if ends_int r then Some (n, r) else None
      | None => None
      end
  | EmptyString => None
  end.

(** The text of a string literal after its opening quote, up to the
    closing one. *)
Fixpoint chars (s : string) : option (string * string) :=
  match s with
  | EmptyString => None
  | String c s' =>
      let n := nat_of_ascii c in
      if (n =? 34)%nat then Some (EmptyString, s')
      else if (n =? 92)%nat then
        match s' with
        | String e s'' =>
            let m := nat_of_ascii e in
            let unescaped :=
              if (m =? 34)%nat then Some e
              else if (m =? 92)%nat then Some e
              else if (m =? 47)%nat then Some e
              else if (m =? 110)%nat then Some (ascii_of_nat 10)
              else if (m =? 114)%nat then Some (ascii_of_nat 13)
              else if (m =? 116)%nat then Some (ascii_of_nat 9)
              else if (m =? 98)%nat then Some (ascii_of_nat 8)
              else if (m =? 102)%nat then Some (ascii_of_nat 12)
              else None in
            match unescaped, chars s'' with
            | Some u, Some (t, r) => Some (String u t, r)
            | _, _ => None
            end
        | EmptyString => None
        end
      else if (n <? 32)%nat then None
      else
        match chars s' with
        | Some (t, r) => Some (String c t, r)
        | None => None
        end
  end.

(** [d[k] = v] on an insertion-ordered dict. *)
Fixpoint dict_set (k : string) (v : json) (kv : list (string * json))
    : list (string * json) :=
  match kv with
  | [] => [(k, v)]
  | (k', v') :: kv' =>
      if String.eqb k k' then (k, v) :: kv' else (k', v') :: dict_set k v kv'
  end.

Definition starts (c : nat) (s : string) : option string :=
  match s with
  | String c' s' => if (nat_of_ascii c' =? c)%nat then Some s' else None
  | EmptyString => None
  end.

Fixpoint value (fuel : nat) (s : string) : option (json * string) :=
  match fuel with
  | O => None
  | S fuel =>
      let s := skip_ws s in
      if String.prefix "null" s then Some (JNull, sdrop 4 s)
      else if String.prefix "true" s then Some (JBool true, sdrop 4 s)
      else if String.prefix "false" s then Some (JBool false, sdrop 5 s)
      else
        match s with
        | EmptyString => None
        | String c s' =>
            let n := nat_of_ascii c in
            if (n =? 34)%nat then
              match chars s' with
              | Some (t, r) => Some (JStr t, r)
              | None => None
              end
            else if (n =? 45)%nat then
              match natural s' with
              | Some (m, r) => Some (JNum (- m), r)
              | None => None
              end
            else if (n =? 91)%nat then
              match starts 93 (skip_ws s') with
              | Some r => Some (JArr [], r)
              | None => elements fuel s' []
              end
            else if (n =? 123)%nat then
              match starts 125 (skip_ws s') with
              | Some r => Some (JObj [], r)
              | None => members fuel s' []
              end
            else
              match natural s with
              | Some (m, r) => Some (JNum m, r)
              | None => None
              end
        end
  end
with elements (fuel : nat) (s : string) (acc : list json) : option (json * string) :=
  match fuel with
  | O => None
  | S fuel =>
      match value fuel s with
      | Some (v, r) =>
          let r := skip_ws r in
          match starts 44 r, starts 93 r with
          | Some r', _ => elements fuel r' (acc ++ [v])
          | None, Some r' => Some (JArr (acc ++ [v]), r')
          | None, None => None
          end
      | None => None
      end
  end
with members (fuel : nat) (s : string) (acc : list (string * json))
    : option (json * string) :=
  match fuel with
  | O => None
  | S fuel =>
      match starts 34 (skip_ws s) with
      | Some s' =>
          match chars s' with
          | Some (k, r) =>
              match starts 58 (skip_ws r) with
              | Some r' =>
                  match value fuel r' with
                  | Some (v, r'') =>
                      let r'' := skip_ws r'' in
                      match starts 44 r'', starts 125 r'' with
                      | Some r3, _ => members fuel r3 (dict_set k v acc)
                      | None, Some r3 => Some (JObj (dict_set k v acc), r3)
                      | None, None => None
                      end
                  | None => None
                  end
              | None => None
              end
          | None => None
          end
      | None => None
      end
  end.

Definition loads (s : string) : result json :=
  match value (2 * String.length s + 2) s with
  | Some (v, r) =>
      match skip_ws r with
      | EmptyString => Ok v
      | _ => Raise "Extra data"
      end
  | None => Raise "Expecting value"
  end.

End Json.

(** ** A closed world for running the agent

    A scripted completion service, a file system of directories and text
    files keyed by normalised path, a shell that accepts every command
    and prints nothing, no browser, and the session store of
    [ProjectSession] driven by a counter for a clock. *)

Module Sim.

Import AutonomousAgent.

(** [pathlib]: the parts of a path between slashes, without the empty
    ones and the dots. A [..] is kept as a name. *)
Fixpoint split_path (s cur : string) : list string :=
  match s with
  | EmptyString => [cur]
  | String c s' =>
      if (nat_of_ascii c =? 47)%nat then cur :: split_path s' EmptyString
      else split_path s' (cur ++ String c EmptyString)
  end.

Definition components (p : string) : list string :=
  List.filter (fun c => negb (String.eqb c "") && negb (String.eqb c "."))
    (split_path p EmptyString).

Definition absolute (p : string) : bool := String.prefix "/" p.

Definition render (abs : bool) (parts : list string) : string :=
  if abs then "/" ++ String.concat "/" parts
  else match parts with
       | [] => "."
       | _ => String.concat "/" parts
       end.

Definition normal (p : string) : string := render (absolute p) (components p).
Definition parent (p : string) : string :=
  render (absolute p) (List.removelast (components p)).
Definition name (p : string) : string := List.last (components p) EmptyString.

Fixpoint repr (v : json) : string :=
  match v with
  | JNull => "None"
  | JBool true => "True"
  | JBool false => "False"
  | JNum n => pretty n
  | JStr s => "'" ++ s ++ "'"
  | JArr l => "[" ++ String.concat ", " (map repr l) ++ "]"
  | JObj kv =>
      "{" ++ String.concat ", "
               (map (fun p => let '(k, v) := p in "'" ++ k ++ "': " ++ repr v) kv)
          ++ "}"
  end.

Definition str (v : json) : string :=
  match v with
  | JStr s => s
  | _ => repr v
  end.

#[export] Instance library : Library := {
  json_loads := Json.loads;
  json_dumps := Json.dumps;
  format := str;
  path_parent := parent;
  path_name := name
}.

Inductive Node : Type :=
  | Dir
  | File (text : string).

Record World : Type := mkWorld {
  files : gmap string Node;
  replies : list (result AssistantMessage);
  shell_log : list json;
  sessions : ProjectSession.Store;
  clock : Z
}.

(** A normalised path names a directory: the two roots always do. *)
Definition is_dir (fs : gmap string Node) (p : string) : bool :=
  String.eqb p "." || String.eqb p "/" ||
  match fs !! p with
  | Some Dir => true
  | _ => false
  end.

(** [mkdir(parents=True, exist_ok=True)], one part at a time from the
    top: a part that is a file stops it, with what was made so far kept. *)
Fixpoint mkdirs (abs : bool) (above below : list string) (fs : gmap string Node)
    : result unit * gmap string Node :=
  match below with
  | [] => (Ok tt, fs)
  | part :: below' =>
      let p := render abs (above ++ [part]) in
      match fs !! p with
      | Some (File _) =>
          (Raise (match below' with
                  | [] => "[Errno 17] File exists: '" ++ p ++ "'"
                  | _ => "[Errno 20] Not a directory: '" ++ p ++ "'"
                  end), fs)
      | _ => mkdirs abs (above ++ [part]) below' (<[p := Dir]> fs)
      end
  end.

Definition mkdir (p : string) (fs : gmap string Node) : result unit * gmap string Node :=
  mkdirs (absolute p) [] (components p) fs.

Definition write_text (p : string) (data : json) (fs : gmap string Node)
    : result unit * gmap string Node :=
  match data with
  | JStr text =>
      if negb (is_dir fs (parent p))
      then (Raise ("[Errno 2] No such file or directory: '" ++ normal p ++ "'"), fs)
      else if is_dir fs (normal p)
      then (Raise ("[Errno 21] Is a directory: '" ++ normal p ++ "'"), fs)
      else (Ok tt, <[normal p := File text]> fs)
  | _ => (Raise ("data must be str, not " ++ type_name data), fs)
  end.

Definition read_text (p : string) (fs : gmap string Node) : result string :=
  match fs !! normal p with
  | Some (File text) => Ok text
  | _ =>
      if is_dir fs (normal p)
      then Raise ("[Errno 21] Is a directory: '" ++ normal p ++ "'")
      else Raise ("[Errno 2] No such file or directory: '" ++ normal p ++ "'")
  end.

Definition iterdir (p : string) (fs : gmap string Node) : result (list (string * bool)) :=
  if is_dir fs (normal p)
  then Ok (map (fun kn => (name (fst kn), match snd kn with Dir => true | File _ => false end))
             (List.filter (fun kn => String.eqb (parent (fst kn)) (normal p))
                (map_to_list fs)))
  else Raise ("[Errno 2] No such file or directory: '" ++ normal p ++ "'").

Definition with_files (w : World) (fs : gmap string Node) : World :=
  mkWorld fs (replies w) (shell_log w) (sessions w) (clock w).

Definition with_sessions (w : World) (st : ProjectSession.Store) (tick : Z) : World :=
  mkWorld (files w) (replies w) (shell_log w) st (clock w + tick).

(** The entries of one of the agent's lists as the [List[str]] the store
    declares. An entry that is not a string is outside what the store of
    this file holds, and the closed world answers it with an error; no
    run below has one. *)
Fixpoint strings (l : list json) : result (list string) :=
  match l with
  | [] => Ok []
  | JStr s :: l' =>
      match strings l' with
      | Ok ss => Ok (s :: ss)
      | Raise e => Raise e
      end
  | v :: _ => Raise ("not a str: " ++ type_name v)
  end.

#[export] Instance collaborators : Collaborators World := {
  ensure_client w := (Ok tt, w);
  chat_completions_create _ w :=
    match replies w with
    | [] => (Raise "Connection error.", w)
    | r :: rs => (r, mkWorld (files w) rs (shell_log w) (sessions w) (clock w))
    end;
  terminal_execute command _ _ _ w :=
    (Ok (0, EmptyString, EmptyString),
     mkWorld (files w) (replies w) (shell_log w ++ [command]) (sessions w) (clock w));
  fs_mkdir p w := let (r, fs) := mkdir p (files w) in (r, with_files w fs);
  fs_write_text p data w :=
    let (r, fs) := write_text p data (files w) in (r, with_files w fs);
  fs_read_text p w := (read_text p (files w), w);
  fs_iterdir p w := (iterdir p (files w), w);
  check_webapp_console _ _ w :=
    (Ok (mkBrowserResult false (Some "Failed to load page: no browser") None None
           false [] [] []), w);
  get_session_context sid w :=
    let (context, st) := ProjectSession.get_session_context sid (sessions w) in
    (Ok context, with_sessions w st 0);
  create_session project_name project_path initial_prompt w :=
    let (sid, st) :=
      ProjectSession.create_session project_name project_path initial_prompt
        (pretty (clock w)) (pretty (clock w + 1)) (pretty (clock w + 2))
        (sessions w) in
    (Ok sid, with_sessions w st 3);
  update_session sid files_created commands_executed status iterations w :=
    match strings files_created, strings commands_executed with
    | Ok fs, Ok cs =>
        (Ok tt,
         with_sessions w
           (ProjectSession.update_session sid
              (ProjectSession.mkUpdate None (Some fs) (Some cs) (Some status)
                 (Some iterations))
              (pretty (clock w)) (sessions w)) 1)
    | Raise e, _ => (Raise e, w)
    | _, Raise e => (Raise e, w)
    end
}.

(** A tool call as the service writes it, with [arguments] already text. *)
Definition tool_call (id name arguments : string) : ToolCall :=
  mkToolCall id "function" name arguments.

(** A response that carries tool calls and no text. *)
Definition calls (tcs : list ToolCall) : result AssistantMessage :=
  Ok (mkAssistantMessage None (Some tcs)).

(** A response that carries text and no tool call. *)
Definition says (text : string) : result AssistantMessage :=
  Ok (mkAssistantMessage (Some text) None).

(** A world with nothing on disk, no session, and the given script. *)
Definition world_of (script : list (result AssistantMessage)) : World :=
  mkWorld ∅ script [] (ProjectSession.mkStore ∅ None) 0.

(** A freshly constructed agent in that world. *)
Definition agent (max_iterations : Z) (script : list (result AssistantMessage))
    : State World :=
  __init__ "test_session" max_iterations None (world_of script).

(** What a run handed back under [key], what it raised, and the
    conversation, the disk and the unread replies it left. *)
Definition field (key : string)
    (run : option (result (gmap string json) * State World)) : option json :=
  match run with
  | Some (Ok outcome, _) => outcome !! key
  | _ => None
  end.

Definition raised (run : option (result (gmap string json) * State World))
    : option string :=
  match run with
  | Some (Raise e, _) => Some e
  | _ => None
  end.

Definition conversation (run : option (result (gmap string json) * State World))
    : list Turn :=
  match run with
  | Some (_, s) => conversation_history s
  | None => []
  end.

Definition disk (run : option (result (gmap string json) * State World))
    : list (string * Node) :=
  match run with
  | Some (_, s) => map_to_list (files (world s))
  | None => []
  end.


(** The tool-result turns of a conversation. *)
Definition tool_results (history : list Turn) : list (string * string) :=
  omap (fun t => match t with
                 | Tool id text => Some (id, text)
                 | _ => None
                 end) history.

(** *** Scripts *)

Definition complete (id summary project_path : string) : ToolCall :=
  tool_call id "task_complete"
    (Json.dumps (JObj [("summary", JStr summary); ("project_path", JStr project_path)])).

Definition write (id file_path text : string) : ToolCall :=
  tool_call id "create_file"
    (Json.dumps (JObj [("file_path", JStr file_path); ("content", JStr text)])).

Definition make_directory (id directory_path : string) : ToolCall :=
  tool_call id "create_directory"
    (Json.dumps (JObj [("directory_path", JStr directory_path)])).

Definition shell (id command : string) : ToolCall :=
  tool_call id "execute_command" (Json.dumps (JObj [("command", JStr command)])).

(** The first response is a question: text and no tool call. *)
Definition question_run :=
  execute_autonomous_task "build a site" false
    (agent 5 [says "Which framework should I use?"]).


(** The model never calls a tool and never says anything. *)
Definition silent_run :=
  execute_autonomous_task "build a site" false
    (agent 2 [says ""; says ""; says ""]).


(** [task_complete] is followed in its batch by a call that parses. *)
Definition complete_then_write_run :=
  execute_autonomous_task "build a site" false
    (agent 5 [calls [complete "call_1" "done" ""; write "call_2" "notes.txt" "later"];
              calls [write "call_3" "never.txt" "unreached"]]).


(** [task_complete] is called with a list for arguments. *)
Definition complete_with_list_run :=
  execute_autonomous_task "build a site" false
    (agent 5 [calls [tool_call "call_1" "task_complete" "[1]"]]).

(** A tool outside the catalogue, then completion. *)
Definition unknown_tool_run :=
  execute_autonomous_task "build a site" false
    (agent 5 [calls [tool_call "call_1" "deploy" "{}"];
              calls [complete "call_2" "done" ""]]).

(** The same file written twice, a write under a path that is a file, the
    same command run twice, then completion. *)
Definition repeated_run :=
  execute_autonomous_task "build a site" false
    (agent 5 [calls [write "call_1" "a.txt" "one"; write "call_2" "a.txt" "two";
                     write "call_3" "a.txt/b.txt" "three"];
              calls [shell "call_4" "ls"; shell "call_5" "ls"];
              calls [complete "call_6" "done" ""]]).

(** The batch of the specification's ordering example. *)
Definition make_x : ToolCall := make_directory "call_1" "x".
Definition write_xy : ToolCall := write "call_2" "x/y.txt" "...".

Definition ordered_run :=
  execute_autonomous_task "build a site" false
    (agent 5 [calls [make_x; write_xy]; calls [complete "call_3" "done" "x"]]).

(** An agent finishes one run and is given a second task, to which the
    model answers with a question. *)
Definition first_run :=
  execute_autonomous_task "write a.txt" false
    (agent 5 [calls [write "call_1" "a.txt" "one"];
              calls [complete "call_2" "done" ""];
              says "What next?"]).

Definition second_run :=
  match first_run with
  | Some (_, s) => execute_autonomous_task "anything else" false s
  | None => None
  end.


(** A cap below zero. *)
Definition negative_cap_run :=
  execute_autonomous_task "build a site" false
    (agent (-1) [calls [complete "call_1" "done" ""]]).

(** The [logger.info] lines of the dispatcher a run left. *)
Definition dispatch_log (run : option (result (gmap string json) * State World))
    : list (string * json) :=
  match run with
  | Some (_, s) => executing_tool_log s
  | None => []
  end.

(** The agent as the preamble of a run leaves it, at the head of the
    loop. *)
Definition started (task : string) (s : State World) : State World :=
  snd (start_conversation task false s).




(** An agent as a loop leaves it, after one file written twice and one
    command, with no session id. *)
Definition finished : State World :=
  mkState "test_session" 5 None [] [JStr "x/y.txt"; JStr "x/y.txt"] [JStr "ls"] []
    (world_of []).

(** An agent that was constructed for the session of [demo_store], as a
    loop leaves it after one file and one command. *)
Definition resumed : State World :=
  mkState "test_session" 5 (Some ProjectSession.demo_id) [] [JStr "a.txt"] [JStr "ls"] []
    (mkWorld ∅ [] [] ProjectSession.demo_store 7).

End Sim.

(** ** A closed world for the terminal

    The world is the list of the commands started. A command that
    mentions [sleep] outlasts every timeout, one that mentions [missing]
    exits with 1, every other one exits with 0; none prints. Nothing but
    the terminal is there. *)

Module Machine.

Import AutonomousAgent TerminalExecutor.

#[export] Instance subprocess : Subprocess (list json) := {
  communicate command _ _ w :=
    (match command with
     | JStr text =>
         if contains "sleep" text then TimedOut
         else if contains "missing" text then Finished 1 EmptyString EmptyString
         else Finished 0 EmptyString EmptyString
     | _ => Failed "cmd must be a string"
     end, (w ++ [command])%list)
}.

Definition linux : Self := TerminalExecutor.__init__ "linux" None.

#[export] Instance collaborators : Collaborators (list json) := {
  ensure_client w := (Ok tt, w);
  chat_completions_create _ w := (Raise "Connection error.", w);
  terminal_execute := execute (H := Sim.library) linux;
  fs_mkdir _ w := (Raise "[Errno 30] Read-only file system", w);
  fs_write_text _ _ w := (Raise "[Errno 30] Read-only file system", w);
  fs_read_text _ w := (Raise "[Errno 30] Read-only file system", w);
  fs_iterdir _ w := (Raise "[Errno 30] Read-only file system", w);
  check_webapp_console _ _ w := (Raise "no browser", w);
  get_session_context _ w := (Ok EmptyString, w);
  create_session _ _ _ w := (Raise "[Errno 30] Read-only file system", w);
  update_session _ _ _ _ _ w := (Ok tt, w)
}.

(** A freshly constructed agent on that machine. *)
Definition agent : State (list json) :=
  AutonomousAgent.__init__ "test_session" 5 None [].

End Machine.

(** * Properties *)

Local Open Scope list_scope.

(** ** The session store *)

Section SessionStore.

Import ProjectSession.

Lemma list_set_NoDup (l : list string) : NoDup (list_set l).
Proof. unfold list_set. apply NoDup_elements. Qed.

Lemma list_set_elem (l : list string) (x : string) : x ∈ list_set l ↔ x ∈ l.
Proof. unfold list_set. rewrite elem_of_elements. set_solver. Qed.

(** [list(set(l))] is any duplicate-free list with the elements of [l],
    up to order. *)
Lemma list_set_perm (l l' : list string) :
  NoDup l' → (∀ x, x ∈ l' ↔ x ∈ l) → list_set l ≡ₚ l'.
Proof.
  intros Hnd Hel. apply NoDup_Permutation; [apply list_set_NoDup | done |].
  intros x. rewrite list_set_elem. symmetry. apply Hel.
Qed.



(** A session that does not load is not created by an update. *)
Lemma stored_update_missing sid u now st :
  stored sid st = None → update_session sid u now st = st.
Proof.
  unfold stored, update_session, load_session.
  destruct (session_dir st !! sid) as [[d'|]|] eqn:E; simpl; done.
Qed.

(** An update of one session leaves the records of the others alone. *)
Lemma stored_update_other sid sid' u now st :
  sid ≠ sid' → stored sid' (update_session sid u now st) = stored sid' st.
Proof.
  intros Hne. unfold stored, update_session, load_session.
  destruct (session_dir st !! sid) as [[d|]|] eqn:E; simpl; try done.
  rewrite lookup_insert_ne by done.
  destruct (session_dir st !! sid') as [[d'|]|]; done.
Qed.










End SessionStore.

(** ** Strings *)

Section Strings.

Lemma prefix_app (p s : string) : String.prefix p (p +:+ s) = true.
Proof.
  induction p as [|c p IH]; simpl; [by destruct s|].
  destruct (Ascii.ascii_dec c c); done.
Qed.




End Strings.

(** ** The dispatcher *)

Section Dispatcher.

Import AutonomousAgent.

Context {W : Type} `{Library} `{Collaborators W}.

Lemma with_world_world (s : State W) : with_world s (world s) = s.
Proof. by destruct s. Qed.

#[local] Instance world_step_refl : Reflexive (world_step (W:=W)).
Proof. intros s. exists (world s). by rewrite with_world_world. Qed.

#[local] Instance world_step_trans : Transitive (world_step (W:=W)).
Proof. intros s1 s2 s3 [w ->] [w' ->]. by exists w'. Qed.

#[local] Instance session_step_refl : Reflexive (session_step (W:=W)).
Proof. intros s. exists (project_session_id s), (world s). by destruct s. Qed.

#[local] Instance session_step_trans : Transitive (session_step (W:=W)).
Proof. intros s1 s2 s3 (p & w & ->) (p' & w' & ->). by exists p', w'. Qed.

Lemma world_session_step (s s' : State W) : world_step s s' → session_step s s'.
Proof. intros [w ->]. by exists (project_session_id s), w. Qed.

Section Stable.

Context (R : State W → State W → Prop) `{!Reflexive R} `{!Transitive R}.

Lemma stable_ret {A} (a : A) : stable R (ret a).
Proof. intros s. simpl. reflexivity. Qed.

Lemma stable_lift {A} (r : result A) : stable R (lift r).
Proof. intros s. simpl. reflexivity. Qed.

Lemma stable_read {A} (f : State W → A) : stable R (read f).
Proof. intros s. simpl. reflexivity. Qed.

Lemma stable_bind {A B} (m : @M W A) (k : A → @M W B) :
  stable R m → (∀ a, stable R (k a)) → stable R (bind m k).
Proof.
  intros Hm Hk s. unfold bind. specialize (Hm s).
  destruct (m s) as [[a|e] s1]; simpl in *; [|done].
  etrans; [exact Hm | apply Hk].
Qed.

Lemma stable_try_except {A} (m : @M W A) (h : string → @M W A) :
  stable R m → (∀ e, stable R (h e)) → stable R (try_except m h).
Proof.
  intros Hm Hh s. unfold try_except. specialize (Hm s).
  destruct (m s) as [[a|e] s1]; simpl in *; [done|].
  etrans; [exact Hm | apply Hh].
Qed.

Lemma stable_if {A} (b : bool) (m1 m2 : @M W A) :
  stable R m1 → stable R m2 → stable R (if b then m1 else m2).
Proof. by destruct b. Qed.

End Stable.

Lemma world_only_call {A} (f : W → result A * W) : stable world_step (call f).
Proof. intros s. unfold call. destruct (f (world s)) as [r w]. by exists w. Qed.

Lemma session_step_call {A} (f : W → result A * W) : stable session_step (call f).
Proof. intros s. apply world_session_step, world_only_call. Qed.

Lemma session_step_set_project_session_id p :
  stable (W:=W) session_step (set_project_session_id p).
Proof. intros s. by exists p, (world s). Qed.

(** Closes a [stable] goal over a computation written with the monad's
    combinators, once its definition is unfolded. *)
Ltac stable :=
  repeat first
    [ eapply stable_try_except; [try apply _ .. | | ]
    | eapply stable_bind; [try apply _ .. | | ]
    | apply stable_if
    | apply stable_ret; apply _
    | apply stable_lift; apply _
    | apply stable_read; apply _
    | apply world_only_call
    | apply session_step_call
    | apply session_step_set_project_session_id
    | intros ?
    | progress case_match ].

Lemma world_only_execute_command c u d : stable world_step (execute_command c u d).
Proof. unfold execute_command. stable. Qed.

Lemma world_only_create_file p c : stable world_step (create_file p c).
Proof. unfold create_file. stable. Qed.

Lemma world_only_read_file p : stable world_step (read_file p).
Proof. unfold read_file. stable. Qed.

Lemma world_only_create_directory p : stable world_step (create_directory p).
Proof. unfold create_directory. stable. Qed.

Lemma world_only_list_directory p : stable world_step (list_directory p).
Proof. unfold list_directory. stable. Qed.

Lemma world_only_check_browser_console u t :
  stable world_step (check_browser_console u t).
Proof. unfold check_browser_console. stable. Qed.

Lemma session_step_save_session task it tc ci :
  stable session_step (save_session task it tc ci).
Proof. unfold save_session. stable. Qed.

Lemma session_step_final_result it tc ci :
  stable (W:=W) session_step (final_result it tc ci).
Proof. unfold final_result. stable. Qed.

Lemma world_only_run {A} (m : @M W A) (s : State W) :
  stable world_step m → ∃ r w, m s = (r, with_world s w).
Proof.
  intros Hm. destruct (Hm s) as [w Hw]. destruct (m s) as [r s']. simpl in Hw.
  subst. eauto.
Qed.

Ltac name_cases tool_name :=
  repeat match goal with
  | |- context [String.eqb tool_name ?x] =>
      let E := fresh "E" in
      destruct (String.eqb tool_name x) eqn:E;
      [ apply String.eqb_eq in E; subst tool_name; simpl | ]
  end.

(** Whatever the tool and its arguments, and whether it returns or
    raises, a dispatch leaves its log entry, at most the one entry of the
    list that records its tool, and a changed world. *)
Lemma _execute_tool_state tool_name tool_args s :
  ∃ r w, _execute_tool tool_name tool_args s = (r, dispatched s tool_name tool_args w).
Proof.
  unfold _execute_tool, announce, dispatched, recorded.
  unfold bind at 1. simpl.
  name_cases tool_name.
  all: destruct tool_args; simpl.
  all: unfold bind, lift, get, get_default, append_files_created,
         append_commands_executed, ret; simpl.
  all: rewrite ?app_nil_r.
  all: try (by eexists _, _).
  all: match goal with
       | |- ∃ r w, ?m ?st = _ =>
           destruct (world_only_run m st) as (r & w & ->);
             [ auto using world_only_execute_command, world_only_create_file,
                 world_only_read_file, world_only_create_directory,
                 world_only_list_directory, world_only_check_browser_console
             | by exists r, w ]
       end.
Qed.

(** When the dispatcher returns, a [create_file] and an
    [execute_command] have left their entry. *)
Lemma _execute_tool_recorded tool_name tool_args s r s' :
  _execute_tool tool_name tool_args s = (Ok r, s') →
  length (recorded "file_path" "create_file" tool_name tool_args)
    = (if String.eqb tool_name "create_file" then 1 else 0)%nat ∧
  length (recorded "command" "execute_command" tool_name tool_args)
    = (if String.eqb tool_name "execute_command" then 1 else 0)%nat.
Proof.
  unfold recorded. destruct tool_args; simpl; try by repeat case_match.
  all: unfold _execute_tool, announce; unfold bind at 1; simpl.
  all: name_cases tool_name; try done.
Qed.

Lemma for_tool_call_eq tool_call v s :
  for_tool_call tool_call v s =
  match json_loads (tc_arguments tool_call) with
  | Raise e => (Raise e, s)
  | Ok tool_args =>
      match _execute_tool (tc_name tool_call) tool_args s with
      | (Raise e, s1) => (Raise e, s1)
      | (Ok tool_result, s1) =>
          if startswith tool_result SENTINEL
          then match payload tool_result with
               | Raise e => (Raise e, s1)
               | Ok completion_info =>
                   (Ok (true, completion_info),
                    extended s1 [Tool (tc_id tool_call) tool_result])
               end
          else (Ok v, extended s1 [Tool (tc_id tool_call) tool_result])
      end
  end.
Proof.
  unfold for_tool_call, bind, lift, payload.
  destruct (json_loads (tc_arguments tool_call)) as [tool_args|e]; [|done].
  destruct (_execute_tool (tc_name tool_call) tool_args s) as [[tool_result|e] s1]; [|done].
  destruct (startswith tool_result SENTINEL); [|done].
  unfold bind. simpl.
  destruct (json_loads (replace tool_result SENTINEL "")); done.
Qed.

(** The batch is run call by call: what follows a prefix starts from
    the state and the flags the prefix left, and is not run at all when
    the prefix raised. *)
Lemma for_tool_calls_app pre rest v s :
  for_tool_calls (pre ++ rest) v s =
  match for_tool_calls pre v s with
  | (Ok v1, s1) => for_tool_calls rest v1 s1
  | (Raise e, s1) => (Raise e, s1)
  end.
Proof.
  revert v s. induction pre as [|tc pre IH]; intros v s; simpl; [done|].
  unfold bind. destruct (for_tool_call tc v s) as [[v1|e] s1]; [apply IH | done].
Qed.

Lemma dispatches_snoc tool log name (args : json) :
  dispatches tool (log ++ [(name, args)])
  = (dispatches tool log + (if String.eqb name tool then 1 else 0))%nat.
Proof.
  unfold dispatches. rewrite List.filter_app, length_app. simpl.
  by destruct (String.eqb name tool).
Qed.

Lemma counted_dispatched s name args w r s' :
  _execute_tool name args s = (Ok r, s') →
  counted s → counted (dispatched s name args w).
Proof.
  intros Hrun [Hf Hc]. apply _execute_tool_recorded in Hrun as [Hrf Hrc].
  unfold counted, dispatched. simpl.
  rewrite !List.filter_app, !length_app, Hf, Hc, Hrf, Hrc. simpl.
  clear. split; case_match; simpl; lia.
Qed.

(** A batch that is processed to its end: every call parsed, was
    dispatched and has its result turn in the conversation, in the order
    of the batch; the flags are those of the results absorbed in that
    order. *)
Lemma for_tool_calls_ok tool_calls v s v' s' :
  for_tool_calls tool_calls v s = (Ok v', s') →
  ∃ args results,
    Forall2 (λ tc a, json_loads (tc_arguments tc) = Ok a) tool_calls args ∧
    length results = length tool_calls ∧
    conversation_history s' = conversation_history s ++ tool_turns tool_calls results ∧
    executing_tool_log s' = executing_tool_log s ++ zip (map tc_name tool_calls) args ∧
    v' = fold_left absorb results v ∧
    Forall (λ r, startswith r SENTINEL = true → ∃ ci, payload r = Ok ci) results ∧
    max_iterations s' = max_iterations s ∧
    project_session_id s' = project_session_id s ∧
    session_id s' = session_id s ∧
    (counted s → counted s').
Proof.
  revert v s. induction tool_calls as [|tc tcs IH]; intros v s; simpl.
  - intros [= <- <-]. exists [], []. simpl. rewrite !app_nil_r.
    split_and!; done || constructor.
  - unfold bind at 1. rewrite for_tool_call_eq.
    destruct (json_loads (tc_arguments tc)) as [a|e] eqn:Ea; [|done].
    destruct (_execute_tool_state (tc_name tc) a s) as (r & w & Hdisp).
    rewrite Hdisp. destruct r as [r|e]; [|done].
    pose proof (counted_dispatched s _ _ w _ _ Hdisp) as Hcount.
    set (s1 := extended (dispatched s (tc_name tc) a w) [Tool (tc_id tc) r]).
    assert (∀ v1, for_tool_calls tcs v1 s1 = (Ok v', s') → v1 = absorb v r →
      (startswith r SENTINEL = true → ∃ ci, payload r = Ok ci) →
      ∃ args results,
        Forall2 (λ tc a, json_loads (tc_arguments tc) = Ok a) (tc :: tcs) args ∧
        length results = S (length tcs) ∧
        conversation_history s' = conversation_history s ++ tool_turns (tc :: tcs) results ∧
        executing_tool_log s' = executing_tool_log s ++ zip (tc_name tc :: map tc_name tcs) args ∧
        v' = fold_left absorb results v ∧
        Forall (λ r, startswith r SENTINEL = true → ∃ ci, payload r = Ok ci) results ∧
        max_iterations s' = max_iterations s ∧
        project_session_id s' = project_session_id s ∧
        session_id s' = session_id s ∧
        (counted s → counted s')) as Hstep.
    { intros v1 Hrun -> Hpay.
      destruct (IH _ _ Hrun) as (args & results & HF & Hlen & Hh & Hl & Hv & HP & Hm & Hp & Hs & Hc).
      exists (a :: args), (r :: results). simpl in *.
      rewrite Hh, Hl, <- !app_assoc. split_and!; try done.
      - by constructor.
      - by rewrite Hlen.
      - by constructor.
      - intros Hs0. apply Hc, Hcount, Hs0. }
    unfold absorb in Hstep.
    destruct (startswith r SENTINEL).
    + destruct (payload r) as [ci|e]; [|done].
      intros Hrun. eapply Hstep; eauto.
    + intros Hrun. eapply Hstep; eauto. done.
Qed.

(** Returning or raising, a batch leaves the agent's identity, its cap
    and its session id as they were. *)
Lemma for_tool_calls_frame tool_calls v s :
  max_iterations (snd (for_tool_calls tool_calls v s)) = max_iterations s ∧
  project_session_id (snd (for_tool_calls tool_calls v s)) = project_session_id s ∧
  session_id (snd (for_tool_calls tool_calls v s)) = session_id s.
Proof.
  revert v s. induction tool_calls as [|tc tcs IH]; intros v s; simpl; [done|].
  unfold bind. rewrite for_tool_call_eq.
  destruct (json_loads (tc_arguments tc)) as [a|e]; [|by simpl].
  destruct (_execute_tool_state (tc_name tc) a s) as (r & w & ->).
  destruct r as [r|e]; [|by simpl].
  destruct (startswith r SENTINEL); [destruct (payload r); [|by simpl]|];
    match goal with
    | |- context [for_tool_calls tcs ?v1 ?s1] =>
        destruct (IH v1 s1) as (-> & -> & ->); by simpl
    end.
Qed.

End Dispatcher.

(** ** The loop *)

Section Loop.

Import AutonomousAgent.

Context {W : Type} `{Library} `{Collaborators W}.

(** One pass through the [try] block, case by case. *)
Lemma iteration_body_eq iteration v s :
  iteration_body iteration v s =
  match chat_completions_create (conversation_history s) (world s) with
  | (Raise e, w) => (Raise e, with_world s w)
  | (Ok message, w) =>
      match tool_calls message with
      | Some (tc :: tcs) =>
          match for_tool_calls (tc :: tcs) v
                  (extended (with_world s w)
                     [Assistant (content message) (Some (tc :: tcs))]) with
          | (Ok v', s') => (Ok (Next, v'), s')
          | (Raise e, s') => (Raise e, s')
          end
      | _ =>
          if (iteration =? 1) && truthy_str (content message)
          then (Ok (Break, v),
                extended (with_world s w) [Assistant (content message) None])
          else (Ok (if iteration <? max_iterations s then Next else Break, v),
                extended (with_world s w)
                  [Assistant (content message) None; User reminder])
      end
  end.
Proof.
  unfold iteration_body, bind, read, call, append_history, extended, with_world, ret.
  simpl.
  destruct (chat_completions_create (conversation_history s) (world s))
    as [[message|e] w]; [|reflexivity].
  destruct (tool_calls message) as [[|tc tcs]|]; simpl.
  - destruct ((iteration =? 1) && truthy_str (content message)); [reflexivity|].
    simpl. rewrite <- ?app_assoc.
    destruct (iteration <? max_iterations s); reflexivity.
  - reflexivity.
  - destruct ((iteration =? 1) && truthy_str (content message)); [reflexivity|].
    simpl. rewrite <- ?app_assoc.
    destruct (iteration <? max_iterations s); reflexivity.
Qed.

Lemma fold_absorb_false results v :
  fst (fold_left absorb results v) = false → fold_left absorb results v = v.
Proof.
  revert v. induction results as [|r results IH]; intros v; simpl; [done|].
  intros Hf. pose proof (IH _ Hf) as E. rewrite E in Hf |- *.
  unfold absorb in *.
  destruct (startswith r SENTINEL); [|done]. by destruct (payload r).
Qed.

Lemma tool_turns_sentinel tcs results :
  length results = length tcs →
  existsb carries_sentinel (tool_turns tcs results)
  = existsb (λ r, startswith r SENTINEL) results.
Proof.
  revert results. induction tcs as [|tc tcs IH]; intros [|r results]; simpl; try done.
  intros [= Hlen]. by rewrite IH.
Qed.

Lemma fold_absorb_true results v :
  fst (fold_left absorb results v) = true →
  fst v = true ∨ existsb (λ r, startswith r SENTINEL) results = true.
Proof.
  revert v. induction results as [|r results IH]; intros v; simpl; [by left|].
  intros Hf. destruct (IH _ Hf) as [Hv | Hex].
  - unfold absorb in Hv. destruct (startswith r SENTINEL); [by right | by left].
  - right. rewrite Hex. apply orb_true_r.
Qed.

(** Once the flag is up the loop is over: the guard fails before anything
    else is done, whatever the fuel, and the state is the one the last
    batch left. *)
Lemma while_loop_complete fuel iteration completion_info (s : State W) :
  while_loop fuel iteration true completion_info s
  = Some (Exited iteration true completion_info, s).
Proof. destruct fuel; simpl; by rewrite andb_false_r. Qed.

(** The loop returns, within the iteration cap, and its flag tells the
    truth: it is set only with a sentinel-carrying result in the
    conversation, and a loop left with the flag down ran to the cap,
    unless it was left at the first response for a question. *)
Lemma while_loop_spec fuel : ∀ iteration task_complete completion_info s,
  0 ≤ iteration ≤ max_iterations s →
  (Z.to_nat (max_iterations s - iteration) ≤ fuel)%nat →
  (task_complete = true →
   existsb carries_sentinel (conversation_history s) = true) →
  ∃ e s', while_loop fuel iteration task_complete completion_info s = Some (e, s') ∧
    max_iterations s' = max_iterations s ∧
    match e with
    | Exited iteration' task_complete' completion_info' =>
        iteration ≤ iteration' ≤ max_iterations s ∧
        (task_complete' = true →
         existsb carries_sentinel (conversation_history s') = true) ∧
        (task_complete' = false →
         completion_info' = completion_info ∧
         (max_iterations s ≤ iteration' ∨
          (iteration = 0 ∧ iteration' = 1 ∧
           ∃ text, text ≠ "" ∧
             conversation_history s' =
               conversation_history s ++ [Assistant (Some text) None])))
    | Returned outcome =>
        ∃ e iteration',
          outcome = error_outcome e iteration' s' ∧
          iteration < iteration' ≤ max_iterations s
    end.
Proof.
  induction fuel as [|fuel IH]; intros it tc ci s Hit Hfuel Htc; simpl.
  - assert (it = max_iterations s) as -> by lia.
    rewrite Z.ltb_irrefl. simpl. eexists _, _. split; [done|].
    split_and!; try done; try lia. intros ->. split; [done | left; lia].
  - destruct (it <? max_iterations s) eqn:Hlt; simpl;
      [apply Z.ltb_lt in Hlt | apply Z.ltb_ge in Hlt].
    2: { eexists _, _. split; [done|]. split_and!; try done; try lia.
         intros ->. split; [done | left; lia]. }
    destruct tc; simpl.
    { eexists _, _. split; [done|]. split_and!; try done; try lia; auto. }
    rewrite iteration_body_eq.
    destruct (chat_completions_create (conversation_history s) (world s))
      as [[message|e] w].
    2: { eexists _, _. split; [done|]. split; [done|]. eexists _, _.
         split; [done | lia]. }
    destruct (tool_calls message) as [[|tc tcs]|] eqn:Hcalls.
    1, 3:
      destruct ((it + 1 =? 1) && truthy_str (content message)) eqn:Hq;
      [ apply andb_true_iff in Hq as [H1 Hc]; apply Z.eqb_eq in H1;
        eexists _, _; split; [done|]; split; [done|];
        split; [lia|]; split; [done|];
        intros _; split; [done|]; right; split; [lia|]; split; [lia|];
        destruct (content message) as [text|]; [|done];
        exists text; split; [|done]; simpl in Hc;
        by apply negb_true_iff, String.eqb_neq in Hc
      | destruct (it + 1 <? max_iterations s) eqn:Hlt';
        [ apply Z.ltb_lt in Hlt';
          edestruct (IH (it + 1) false ci
                       (extended (with_world s w)
                          [Assistant (content message) None; User reminder]))
            as (e & s' & Hrun & Hmax & He); simpl; try lia; try done;
          simpl in *; exists e, s'; split; [done|]; split; [done|];
          destruct e as [it' tc' ci'|d];
          [ destruct He as (Hi & Hs & Hf); split; [lia|]; split; [done|];
            intros Hf'; destruct (Hf Hf') as [-> [? | (? & _)]]; [|lia];
            split; [done | by left]
          | destruct He as (e & it' & -> & Hi); eexists _, _;
            split; [done | lia] ]
        | apply Z.ltb_ge in Hlt';
          eexists _, _; split; [done|]; split; [done|];
          split; [lia|]; split; [done|];
          intros _; split; [done | left; lia] ] ].
    match goal with
    | |- context [for_tool_calls (tc :: tcs) (false, ci) ?s0] =>
        pose proof (for_tool_calls_frame (tc :: tcs) (false, ci) s0) as (Hm1 & _ & _);
        destruct (for_tool_calls (tc :: tcs) (false, ci) s0)
          as [[[tc' ci'] | e] s1] eqn:Hrun
    end; simpl in Hm1.
    2: { eexists _, _. split; [done|]. split; [done|]. eexists _, _.
         split; [done | lia]. }
    destruct (for_tool_calls_ok _ _ _ _ _ Hrun)
      as (args & results & _ & Hlen & Hhist & _ & Hv & _).
    destruct tc'.
    + rewrite while_loop_complete.
      eexists _, _. split; [done|]. split; [done|]. split; [lia|].
      split; [|done]. intros _.
      rewrite Hhist, existsb_app, tool_turns_sentinel by done.
      symmetry in Hv. apply (f_equal fst) in Hv.
      apply fold_absorb_true in Hv as [Hv | ->]; [done | apply orb_true_r].
    + assert (ci' = ci) as ->.
      { symmetry in Hv. pose proof (fold_absorb_false results (false, ci)) as Hf.
        rewrite Hv in Hf. specialize (Hf eq_refl). congruence. }
      edestruct (IH (it + 1) false ci s1) as (e & s' & Hrun' & Hmax & He);
        try rewrite Hm1; try lia; try done.
      rewrite Hm1 in *. exists e, s'. split; [done|]. split; [done|].
      destruct e as [it' tc' ci'|d].
      * destruct He as (Hi & Hs & Hf). split; [lia|]. split; [done|].
        intros Hf'. destruct (Hf Hf') as [-> [? | (? & _)]]; [|lia].
        split; [done | by left].
      * destruct He as (e & it' & -> & Hi). eexists _, _. split; [done | lia].
Qed.

End Loop.

(** ** A whole run *)

Section Run.

Import AutonomousAgent.

Context {W : Type} `{Library} `{Collaborators W}.

(** Before the loop: the conversation is reset to the system prompt and
    the task; the cap, the two lists and the log are not touched. *)
Lemma start_conversation_ok task continue_session s s' :
  start_conversation task continue_session s = (Ok tt, s') →
  ∃ text w,
    s' = mkState (session_id s) (max_iterations s) (project_session_id s)
           [System text; User task] (files_created s) (commands_executed s)
           (executing_tool_log s) w.
Proof.
  unfold start_conversation, bind, call, read, set_history, with_world. simpl.
  destruct (ensure_client (world s)) as [[[]|e] w]; [|done].
  simpl. destruct (continue_session && truthy_str (project_session_id s)).
  - simpl. destruct (get_session_context _ w) as [[context|e] w']; [|done].
    intros [= <-]. eauto.
  - simpl. intros [= <-]. eauto.
Qed.

Lemma session_step_run {A} (m : @M W A) (s : State W) :
  stable session_step m →
  ∃ r p w, m s = (r, mkState (session_id s) (max_iterations s) p
                       (conversation_history s) (files_created s)
                       (commands_executed s) (executing_tool_log s) w).
Proof.
  intros Hm. destruct (Hm s) as (p & w & Hs). destruct (m s) as [r s'].
  simpl in Hs. subst. eauto.
Qed.

(** With the flag down nothing is saved. *)
Lemma save_session_incomplete task iteration completion_info (s : State W) :
  save_session task iteration false completion_info s = (Ok tt, s).
Proof. done. Qed.

Lemma final_result_eq iteration task_complete completion_info (s : State W) :
  final_result iteration task_complete completion_info s =
  match get_default completion_info "summary" (JStr "Task completed"),
        get completion_info "project_path" with
  | Ok summary, Ok project_path =>
      (Ok (dict [("success", JBool task_complete);
                 ("summary", summary);
                 ("project_path", project_path);
                 ("iterations", JNum iteration);
                 ("max_iterations_reached", JBool (max_iterations s <=? iteration));
                 ("session_id", of_optional (project_session_id s));
                 ("files_created", JNum (Z.of_nat (length (files_created s))));
                 ("commands_executed",
                  JNum (Z.of_nat (length (commands_executed s))))]), s)
  | Raise e, _ => (Raise e, s)
  | Ok _, Raise e => (Raise e, s)
  end.
Proof.
  unfold final_result, bind, lift, read, ret.
  destruct (get_default completion_info "summary" _); [|done].
  by destruct (get completion_info "project_path").
Qed.

(** The loop of a run returns, whatever the cap. *)
Lemma while_loop_returns completion_info (s : State W) :
  ∃ e s', while_loop (Z.to_nat (max_iterations s)) 0 false completion_info s
          = Some (e, s').
Proof.
  destruct (Z.lt_ge_cases (max_iterations s) 0) as [Hneg | Hpos].
  - exists (Exited 0 false completion_info), s.
    assert ((0 <? max_iterations s) = false) as Hlt by (apply Z.ltb_ge; lia).
    destruct (Z.to_nat (max_iterations s)); simpl; by rewrite Hlt.
  - destruct (while_loop_spec (Z.to_nat (max_iterations s)) 0 false completion_info s)
      as (e & s' & Hrun & _); [lia | lia | done | eauto].
Qed.

(** [execute_autonomous_task] is total: it hands back a dict or raises. *)
Lemma execute_autonomous_task_returns task continue_session (s : State W) :
  ∃ r s', execute_autonomous_task task continue_session s = Some (r, s').
Proof.
  unfold execute_autonomous_task.
  destruct (start_conversation task continue_session s) as [[[]|e] s0]; [|eauto].
  destruct (while_loop_returns (JObj []) s0) as ([it tc ci|d] & s1 & ->); [|eauto].
  destruct (bind _ _ s1); eauto.
Qed.

(** The two lists agree with the log whenever the loop is left with its
    variables. *)
Lemma while_loop_counted fuel : ∀ iteration task_complete completion_info s
    iteration' task_complete' completion_info' s',
  counted s →
  while_loop fuel iteration task_complete completion_info s
  = Some (Exited iteration' task_complete' completion_info', s') →
  counted s'.
Proof.
  induction fuel as [|fuel IH]; intros it tc ci s it' tc' ci' s' Hs; simpl.
  - destruct ((it <? max_iterations s) && negb tc); [done|]. by intros [= _ _ _ <-].
  - destruct ((it <? max_iterations s) && negb tc); [|by intros [= _ _ _ <-]].
    rewrite iteration_body_eq.
    destruct (chat_completions_create (conversation_history s) (world s))
      as [[message|e] w]; [|done].
    assert (∀ turns, counted (extended (with_world s w) turns)) as Hext by done.
    destruct (tool_calls message) as [[|tc0 tcs]|].
    1, 3: destruct ((it + 1 =? 1) && truthy_str (content message));
          [ by intros [= _ _ _ <-]
          | destruct (it + 1 <? max_iterations s);
            [ by apply IH | by intros [= _ _ _ <-] ] ].
    destruct (for_tool_calls (tc0 :: tcs) (tc, ci) _) as [[[tc1 ci1]|e] s1] eqn:Hrun;
      [|done].
    apply for_tool_calls_ok in Hrun as (_ & _ & _ & _ & _ & _ & _ & _ & _ & _ & _ & Hc).
    apply IH, Hc, Hext.
Qed.















(** C9 (amended). For every run of a freshly constructed agent that
    hands back the dict built after the loop, [files_created] and
    [commands_executed] are the numbers of [create_file] and
    [execute_command] invocations the dispatcher was entered with during
    the run: each dispatch counts, whatever its path or command and
    whatever string it returned. *)
Theorem outcome_counts_dispatches task continue_session session cap psid (w : W) :
  ∃ r s',
    execute_autonomous_task task continue_session (__init__ session cap psid w)
    = Some (r, s') ∧
    ∀ outcome, r = Ok outcome → outcome !! "error" = None →
      outcome !! "files_created"
      = Some (JNum (Z.of_nat (dispatches "create_file" (executing_tool_log s')))) ∧
      outcome !! "commands_executed"
      = Some (JNum (Z.of_nat (dispatches "execute_command" (executing_tool_log s')))).
Proof.
  unfold execute_autonomous_task.
  destruct (start_conversation task continue_session (__init__ session cap psid w))
    as [[[]|e] s0] eqn:Hstart; [|by eexists _, _].
  apply start_conversation_ok in Hstart as (text & w0 & ->). simpl.
  set (s0 := mkState _ _ _ _ _ _ _ _).
  assert (counted s0) as Hs0 by done.
  destruct (while_loop_returns (JObj []) s0) as ([it tc ci|d] & s1 & Hloop);
    simpl in Hloop; rewrite Hloop.
  - apply (while_loop_counted _ _ _ _ _ _ _ _ _ Hs0) in Hloop as [Hf Hc].
    destruct (session_step_run _ s1 (session_step_save_session task it tc ci))
      as (r1 & p & w1 & Hsave).
    unfold bind. rewrite Hsave. destruct r1 as [[]|e]; [|by eexists _, _].
    rewrite final_result_eq.
    destruct (get_default ci "summary" _) as [summary|e]; [|by eexists _, _].
    destruct (get ci "project_path") as [project_path|e]; [|by eexists _, _].
    eexists _, _. split; [done|]. intros outcome [= <-] _. simpl.
    unfold dispatches. rewrite <- Hf, <- Hc. done.
  - eexists _, _. split; [done|]. intros outcome [= <-] Herr.
    destruct (Z.lt_ge_cases cap 0) as [Hneg | Hpos].
    + exfalso. assert ((0 <? cap) = false) as Hlt by (apply Z.ltb_ge; lia).
      destruct (Z.to_nat cap); simpl in Hloop; rewrite Hlt in Hloop; done.
    + destruct (while_loop_spec (Z.to_nat cap) 0 false (JObj []) s0)
        as (e' & s1' & Hloop' & _ & He); [simpl; lia | simpl; lia | done |].
      rewrite Hloop in Hloop'. injection Hloop' as <- <-.
      destruct He as (e & it & -> & _). done.
Qed.

End Run.

(** ** Runs in the closed world *)

Section ClosedWorld.

Import AutonomousAgent Sim.

Lemma make_x_arguments :
  json_loads (tc_arguments make_x) = Ok (JObj [("directory_path", JStr "x")]).
Proof. vm_compute. reflexivity. Qed.

Lemma write_xy_arguments :
  json_loads (tc_arguments write_xy)
  = Ok (JObj [("file_path", JStr "x/y.txt"); ("content", JStr "...")]).
Proof. vm_compute. reflexivity. Qed.

(** [create_directory("x")]: a result turn follows; where [x] is not a
    file the directory is there afterwards and the result says so, and
    where it is one the disk is left alone. *)
Lemma run_make_x v (s : State World) :
  ∃ r s',
    for_tool_call make_x v s = (Ok v, s') ∧
    conversation_history s' = conversation_history s ++ [Tool "call_1" r] ∧
    ((∀ text, files (world s) !! "x" ≠ Some (File text)) →
     r = "Successfully created directory: x" ∧
     files (world s') = <["x" := Dir]> (files (world s))) ∧
    ((∃ text, files (world s) !! "x" = Some (File text)) →
     files (world s') = files (world s)).
Proof.
  rewrite for_tool_call_eq, make_x_arguments.
  change (tc_name make_x) with "create_directory".
  unfold _execute_tool, announce, bind, log_executing_tool, lift, ret. simpl.
  unfold create_directory, try_except, bind, lift, call. simpl.
  unfold mkdir.
  change (absolute "x") with false. change (components "x") with ["x"].
  simpl. change (render false ["x"]) with "x".
  destruct (files (world s) !! "x") as [[|text]|] eqn:E; simpl;
    eexists _, _; (split; [reflexivity|]); (split; [reflexivity|]); split.
  - done.
  - by intros [text [=]].
  - intros Hx. by destruct (Hx text).
  - done.
  - done.
  - by intros [text [=]].
Qed.

(** [create_file("x/y.txt", "...")]: a result turn follows; where [x]
    is a directory the file is written, unless [x/y.txt] is itself a
    directory; and the write succeeds only where [x] is not a file. *)
Lemma run_write_xy v (s : State World) :
  ∃ r s',
    for_tool_call write_xy v s = (Ok v, s') ∧
    conversation_history s' = conversation_history s ++ [Tool "call_2" r] ∧
    (files (world s) !! "x" = Some Dir →
     is_dir (files (world s)) "x/y.txt" = false →
     r = "Successfully created file: x/y.txt" ∧
     files (world s') !! "x/y.txt" = Some (File "...")) ∧
    (r = "Successfully created file: x/y.txt" →
     ∀ text, files (world s) !! "x" ≠ Some (File text)).
Proof.
  rewrite for_tool_call_eq, write_xy_arguments.
  change (tc_name write_xy) with "create_file".
  unfold _execute_tool, announce, bind, log_executing_tool, lift, ret,
    append_files_created. simpl.
  unfold create_file, try_except, bind, lift, call. simpl.
  change (parent "x/y.txt") with "x". unfold mkdir.
  change (absolute "x") with false. change (components "x") with ["x"].
  simpl. change (render false ["x"]) with "x".
  assert (∀ fs : gmap string Node,
            is_dir (<["x" := Dir]> fs) "x/y.txt" = is_dir fs "x/y.txt") as Hxy.
  { intros fs. unfold is_dir. by rewrite lookup_insert_ne. }
  destruct (files (world s) !! "x") as [[|text]|] eqn:E; simpl.
  1, 3: unfold write_text; change (parent "x/y.txt") with "x";
        change (normal "x/y.txt") with "x/y.txt";
        unfold is_dir at 1; rewrite lookup_insert_eq; simpl; rewrite Hxy;
        destruct (is_dir (files (world s)) "x/y.txt"); simpl;
        eexists _, _; (split; [reflexivity|]); (split; [reflexivity|]);
        (split; [| done]); try done;
        intros _ _; (split; [reflexivity|]); simpl; apply lookup_insert_eq.
  eexists _, _. split; [reflexivity|]. split; [reflexivity|]. split; done.
Qed.

(** C5. In every assistant turn the calls are dispatched one after the
    other in the order of the batch: a call is dispatched from the state
    the calls before it left, in which each of them has been dispatched
    and has its tool-result turn in the conversation, in order, and is not
    dispatched at all when one of them raised. For the batch
    [create_directory("x"), create_file("x/y.txt", "...")] in the closed
    world, on any disk: the directory's result turn is in the
    conversation when the file call is dispatched and the file's result
    turn comes next; where [x] is not a file, [x] is a directory in the
    state from which the file is written; and the write succeeds only
    with [x] a directory in that state. *)
Theorem tool_calls_run_in_order :
  (∀ (W : Type) (L : Library) (C : Collaborators W)
     pre tool_call post v (s : State W),
      for_tool_calls (pre ++ tool_call :: post) v s
      = match for_tool_calls pre v s with
        | (Ok v1, s1) =>
            match for_tool_call tool_call v1 s1 with
            | (Ok v2, s2) => for_tool_calls post v2 s2
            | (Raise e, s2) => (Raise e, s2)
            end
        | (Raise e, s1) => (Raise e, s1)
        end ∧
      ∀ v1 s1, for_tool_calls pre v s = (Ok v1, s1) →
        ∃ args results,
          Forall2 (λ tc a, json_loads (tc_arguments tc) = Ok a) pre args ∧
          length results = length pre ∧
          conversation_history s1 = conversation_history s ++ tool_turns pre results ∧
          executing_tool_log s1
          = executing_tool_log s ++ zip (map tc_name pre) args) ∧
  (∀ v (s : State World),
      ∃ r1 s1 r2 s2,
        for_tool_call make_x v s = (Ok v, s1) ∧
        conversation_history s1 = conversation_history s ++ [Tool "call_1" r1] ∧
        for_tool_call write_xy v s1 = (Ok v, s2) ∧
        for_tool_calls [make_x; write_xy] v s = (Ok v, s2) ∧
        conversation_history s2
        = conversation_history s ++ [Tool "call_1" r1; Tool "call_2" r2] ∧
        ((∀ text, files (world s) !! "x" ≠ Some (File text)) →
         r1 = "Successfully created directory: x" ∧
         is_dir (files (world s1)) "x" = true ∧
         (is_dir (files (world s)) "x/y.txt" = false →
          r2 = "Successfully created file: x/y.txt" ∧
          files (world s2) !! "x/y.txt" = Some (File "..."))) ∧
        (r2 = "Successfully created file: x/y.txt" →
         is_dir (files (world s1)) "x" = true)).
Proof.
  split.
  - intros W L C pre tool_call post v s. split.
    + rewrite for_tool_calls_app.
      destruct (for_tool_calls pre v s) as [[v1|e] s1]; [|done].
      cbn [for_tool_calls]. unfold bind.
      by destruct (for_tool_call tool_call v1 s1) as [[v2|e] s2].
    + intros v1 s1 Hpre.
      destruct (for_tool_calls_ok _ _ _ _ _ Hpre)
        as (args & results & HF & Hlen & Hhist & Hlog & _).
      by exists args, results.
  - intros v s.
    destruct (run_make_x v s) as (r1 & s1 & H1 & Hh1 & Hdir & Hfile).
    destruct (run_write_xy v s1) as (r2 & s2 & H2 & Hh2 & Hwrite & Honly).
    assert ((∀ text, files (world s) !! "x" ≠ Some (File text)) →
            is_dir (files (world s1)) "x" = true) as Hx.
    { intros Hno. destruct (Hdir Hno) as [_ Hd]. unfold is_dir.
      by rewrite Hd, lookup_insert_eq. }
    exists r1, s1, r2, s2. split_and!; try done.
    + cbn [for_tool_calls]. unfold bind. by rewrite H1, H2.
    + rewrite Hh2, Hh1. by rewrite <- app_assoc.
    + intros Hno. destruct (Hdir Hno) as [-> Hd]. split_and!; [done | auto |].
      intros Hxy. apply Hwrite; rewrite Hd; [apply lookup_insert_eq|].
      unfold is_dir in *. by rewrite lookup_insert_ne.
    + intros Hr2. apply Hx. intros text Htext.
      apply (Honly Hr2 text). rewrite Hfile by eauto. done.
Qed.

End ClosedWorld.

Section ClosedRuns.

Import AutonomousAgent Sim.


(** Under a negative cap the loop is not entered, and [iterations], 0,
    is above the cap. *)
Lemma negative_cap_is_exceeded :
  field "iterations" negative_cap_run = Some (JNum 0) ∧
  field "max_iterations_reached" negative_cap_run = Some (JBool true).
Proof. vm_compute. repeat split; reflexivity. Qed.


(** On that run the conditions hold and the report is made. *)
Lemma silent_run_is_exhausted :
  existsb carries_sentinel (conversation silent_run) = false ∧
  asked_question (conversation silent_run) = false ∧
  field "error" silent_run = None ∧
  field "iterations" silent_run = Some (JNum 2) ∧
  field "max_iterations_reached" silent_run = Some (JBool true).
Proof. vm_compute. repeat split; reflexivity. Qed.


(** The dict built after the loop has no [error] key. *)
Lemma question_outcome_lacks_error :
  field "success" question_run = Some (JBool false) ∧
  field "error" question_run = None.
Proof. vm_compute. split; reflexivity. Qed.

(** An exception does leave the call: [task_complete] given a list sets
    the flag, and the first [completion_info.get] after the loop raises. *)
Lemma complete_with_list_raises :
  raised complete_with_list_run = Some "'list' object has no attribute 'get'".
Proof. vm_compute. reflexivity. Qed.







(** The ordering of C5 on the specification's batch, on an empty disk:
    both calls succeed, in that order, and the file is written with its
    directory there. *)
Lemma tool_calls_run_in_order_witness :
  ∃ s1 s2,
    for_tool_call make_x (false, JObj []) (agent 5 []) = (Ok (false, JObj []), s1) ∧
    conversation_history s1 = [Tool "call_1" "Successfully created directory: x"] ∧
    is_dir (files (world s1)) "x" = true ∧
    for_tool_call write_xy (false, JObj []) s1 = (Ok (false, JObj []), s2) ∧
    conversation_history s2
    = [Tool "call_1" "Successfully created directory: x";
       Tool "call_2" "Successfully created file: x/y.txt"] ∧
    files (world s2) !! "x/y.txt" = Some (File "...").
Proof.
  destruct (proj2 tool_calls_run_in_order (false, JObj []) (agent 5 []))
    as (r1 & s1 & r2 & s2 & H1 & Hh1 & H2 & _ & Hh2 & Hdir & _).
  destruct Hdir as (-> & Hx & Hfile).
  { intros text. simpl. rewrite lookup_empty. discriminate. }
  destruct Hfile as [-> Hxy]; [reflexivity|].
  exists s1, s2. split_and!; assumption.
Defined.

(** On the empty disk both calls succeed, in that order, and the file is
    under the directory. *)
Lemma ordered_run_results :
  map snd (firstn 2 (tool_results (conversation ordered_run)))
  = ["Successfully created directory: x"; "Successfully created file: x/y.txt"] ∧
  disk ordered_run = [("x/y.txt", File "..."); ("x", Dir)].
Proof. vm_compute. split; reflexivity. Qed.




(** In a whole run the unknown tool is answered and the loop goes on to
    the next response. *)
Lemma unknown_tool_run_goes_on :
  map fst (tool_results (conversation unknown_tool_run)) = ["call_1"; "call_2"] ∧
  tool_results (conversation unknown_tool_run) !! 0%nat
  = Some ("call_1", "Unknown tool: deploy") ∧
  field "success" unknown_tool_run = Some (JBool true) ∧
  field "iterations" unknown_tool_run = Some (JNum 2).
Proof. vm_compute. repeat split; reflexivity. Qed.

(** C9, as the claim states it, fails: the second run of an agent
    dispatches nothing, and its [files_created] still counts the write of
    the first run. *)
Lemma reused_agent_counts_the_earlier_run :
  map fst (dispatch_log first_run) = ["create_file"; "task_complete"] ∧
  dispatch_log second_run = dispatch_log first_run ∧
  tool_results (conversation second_run) = [] ∧
  field "files_created" second_run = Some (JNum 1).
Proof. vm_compute. repeat split; reflexivity. Qed.

(** The counts of C9 on a run that writes one path twice, fails a third
    write and runs one command twice. *)
Lemma outcome_counts_dispatches_witness :
  ∃ r s',
    execute_autonomous_task "build a site" false
      (__init__ "test_session" 5 None
         (world_of [calls [write "call_1" "a.txt" "one"; write "call_2" "a.txt" "two";
                           write "call_3" "a.txt/b.txt" "three"];
                    calls [shell "call_4" "ls"; shell "call_5" "ls"];
                    calls [complete "call_6" "done" ""]]))
    = Some (r, s') ∧
    ∀ outcome, r = Ok outcome → outcome !! "error" = None →
      outcome !! "files_created"
      = Some (JNum (Z.of_nat (dispatches "create_file" (executing_tool_log s')))) ∧
      outcome !! "commands_executed"
      = Some (JNum (Z.of_nat (dispatches "execute_command" (executing_tool_log s')))).
Proof.
  apply (outcome_counts_dispatches (W:=World)).
Defined.

(** There three writes are counted for one file on disk, and two
    commands. *)
Lemma repeated_run_counts :
  field "files_created" repeated_run = Some (JNum 3) ∧
  field "commands_executed" repeated_run = Some (JNum 2) ∧
  disk repeated_run = [("a.txt", File "two")] ∧
  dispatches "create_file" (dispatch_log repeated_run) = 3%nat ∧
  dispatches "execute_command" (dispatch_log repeated_run) = 2%nat.
Proof. vm_compute. repeat split; reflexivity. Qed.


(** Without the hypothesis of C10 the payload is not the argument map: a
    summary that contains the sentinel loses it. *)
Lemma sentinel_inside_summary_is_lost :
  payload (SENTINEL +:+ json_dumps (JObj [("summary", JStr "TASK_COMPLETE: yes")]))
  = Ok (JObj [("summary", JStr " yes")]).
Proof. vm_compute. reflexivity. Qed.

(** Nor is it when the sentinel sits in a key. *)
Lemma sentinel_inside_key_is_lost :
  payload (SENTINEL +:+ json_dumps (JObj [("TASK_COMPLETE:note", JStr "x")]))
  = Ok (JObj [("note", JStr "x")]).
Proof. vm_compute. reflexivity. Qed.

End ClosedRuns.

(** ** The session store: creation, updates and listing *)

Section SessionStoreOperations.

Import ProjectSession.

Lemma string_length_app (a b : string) :
  String.length (a +:+ b) = (String.length a + String.length b)%nat.
Proof. induction a as [|x a IH]; [done|]. simpl. by rewrite IH. Qed.

(** Two concatenations with right parts of one length agree part by
    part. *)
Lemma app_inj_length_2 (a b c d : string) :
  String.length b = String.length d → a +:+ b = c +:+ d → a = c ∧ b = d.
Proof.
  revert c. induction a as [|x a IH]; intros [|y c] Hlen E.
  - done.
  - change (b = String y (c +:+ d)) in E.
    rewrite E in Hlen. simpl in Hlen. rewrite string_length_app in Hlen. lia.
  - change (String x (a +:+ b) = d) in E.
    rewrite <- E in Hlen. simpl in Hlen. rewrite string_length_app in Hlen. lia.
  - change (String x (a +:+ b) = String y (c +:+ d)) in E.
    injection E as -> E. destruct (IH c Hlen E) as [-> ->]. done.
Qed.

Lemma stored_spec sid st :
  stored sid st =
  match session_dir st !! sid with
  | Some (Stored d) => Some d
  | _ => None
  end.
Proof.
  unfold stored, load_session. by destruct (session_dir st !! sid) as [[d|]|].
Qed.


(** X2. With time stamps of one length, as [strftime('%Y%m%d_%H%M%S')]
    gives them, two [create_session] calls return the same id only for
    the same project name and the same stamp. *)
Theorem session_ids_are_distinct st st' name name' path path' prompt prompt'
    stamp stamp' c c' u u' :
  String.length stamp = String.length stamp' →
  fst (create_session name path prompt stamp c u st)
  = fst (create_session name' path' prompt' stamp' c' u' st') →
  name = name' ∧ stamp = stamp'.
Proof.
  simpl. intros Hlen E.
  assert (String.length ("_" +:+ stamp) = String.length ("_" +:+ stamp')) as Hlen'
    by (rewrite !string_length_app, Hlen; reflexivity).
  destruct (app_inj_length_2 _ _ _ _ Hlen' E) as [-> E'].
  change (String "_"%char stamp = String "_"%char stamp') in E'.
  by injection E'.
Qed.

Lemma session_ids_are_distinct_witness :
  "shop" = "shop" ∧ "20240101_120000" = "20240101_120000".
Proof.
  apply (session_ids_are_distinct (mkStore ∅ None) demo_store
           "shop" "shop" "generated_projects/shop" "elsewhere/shop" "build it"
           "build it again" "20240101_120000" "20240101_120000"
           "2024-01-01T12:00:00" "2024-01-01T12:00:00.5"
           "2024-01-01T12:00:00" "2024-01-01T12:00:00.5"); reflexivity.
Defined.

(** X3. [update_session] on an id whose file is missing, or does not
    parse, changes nothing: no file is written, none is created, and the
    current session stays; so it is with [mark_complete] and
    [mark_failed]. *)
Theorem update_session_unloadable_is_noop sid u now st :
  session_dir st !! sid = None ∨ session_dir st !! sid = Some Corrupt →
  update_session sid u now st = st ∧
  mark_complete sid now st = st ∧
  mark_failed sid now st = st.
Proof.
  intros Hfile.
  assert (stored sid st = None) as Hnone
    by (rewrite stored_spec; destruct Hfile as [-> | ->]; done).
  unfold mark_complete, mark_failed.
  split_and!; by apply stored_update_missing.
Qed.

Lemma update_session_unloadable_is_noop_witness :
  update_session "other_20240101_120000" (only_prompt "more") "2024-01-02T08:00:00"
    demo_store = demo_store ∧
  mark_complete "other_20240101_120000" "2024-01-02T08:00:00" demo_store = demo_store ∧
  mark_failed "other_20240101_120000" "2024-01-02T08:00:00" demo_store = demo_store.
Proof.
  apply update_session_unloadable_is_noop. left. vm_compute. reflexivity.
Defined.

(** X4. [update_session] writes at most the file of its own session:
    the directory holds the same files after it as before, and the file
    of every other session is unchanged. *)
Theorem update_session_touches_one_file sid u now st :
  dom (session_dir (update_session sid u now st)) = dom (session_dir st) ∧
  ∀ sid', sid' ≠ sid →
    session_dir (update_session sid u now st) !! sid' = session_dir st !! sid'.
Proof.
  unfold update_session, load_session.
  destruct (session_dir st !! sid) as [[d|]|] eqn:E; simpl; split; try done.
  - rewrite dom_insert_L.
    assert (sid ∈ dom (session_dir st)) by (apply elem_of_dom; eauto).
    set_solver.
  - intros sid' Hne. by rewrite lookup_insert_ne.
Qed.









(** X9. [get_session_context] returns the empty string exactly when the
    session does not load, and then leaves the store as it is. It never
    writes to the directory. For a session that loads, the text begins
    with a newline and [CONTINUING PROJECT SESSION: <project_name>], and
    the record becomes the current session. *)
Theorem get_session_context_empty_iff_unloadable sid st :
  (fst (get_session_context sid st) = "" ↔ stored sid st = None) ∧
  (stored sid st = None → snd (get_session_context sid st) = st) ∧
  session_dir (snd (get_session_context sid st)) = session_dir st ∧
  ∀ d, stored sid st = Some d →
    startswith (fst (get_session_context sid st))
      (nl +:+ "CONTINUING PROJECT SESSION: " +:+ project_name d) = true ∧
    current_session (snd (get_session_context sid st)) = Some d.
Proof.
  rewrite stored_spec. unfold get_session_context, load_session.
  destruct (session_dir st !! sid) as [[d|]|]; simpl; split_and!; try done.
  intros d' [= <-]. split; [|done].
  unfold startswith. simpl.
  apply (prefix_app ("" +:+ project_name d)).
Qed.

Lemma string_leb_trans (a b c : string) :
  String.leb a b = true → String.leb b c = true → String.leb a c = true.
Proof.
  unfold String.leb. revert b c.
  induction a as [|x a IH]; intros [|y b] [|z c]; simpl; try done.
  unfold Ascii.compare.
  destruct (N.compare_spec (N_of_ascii x) (N_of_ascii y)) as [Exy|Hxy|Hxy];
    destruct (N.compare_spec (N_of_ascii y) (N_of_ascii z)) as [Eyz|Hyz|Hyz];
    destruct (N.compare_spec (N_of_ascii x) (N_of_ascii z)) as [Exz|Hxz|Hxz];
    try done; try lia.
  apply IH.
Qed.

Lemma insert_by_updated_at_perm x l : insert_by_updated_at x l ≡ₚ x :: l.
Proof.
  induction l as [|y l IH]; simpl; [done|].
  destruct (String.ltb _ _); [|done].
  rewrite IH. apply Permutation_swap.
Qed.

Lemma sort_by_updated_at_perm l : sort_by_updated_at l ≡ₚ l.
Proof.
  induction l as [|x l IH]; simpl; [done|].
  by rewrite insert_by_updated_at_perm, IH.
Qed.

Lemma insert_by_updated_at_sorted x l :
  StronglySorted most_recent_first l →
  StronglySorted most_recent_first (insert_by_updated_at x l).
Proof.
  induction 1 as [|y l Hl IH Hy]; simpl.
  - repeat constructor.
  - destruct (String.ltb _ _) eqn:E.
    + constructor; [done|].
      rewrite insert_by_updated_at_perm. constructor; [|done].
      unfold most_recent_first, String.leb. unfold String.ltb in E.
      by destruct (String.compare _ _).
    + assert (most_recent_first x y) as Hxy.
      { unfold most_recent_first, String.leb. unfold String.ltb in E.
        rewrite String.compare_antisym. by destruct (String.compare _ _). }
      constructor; [by constructor|].
      constructor; [done|].
      eapply Forall_impl; [exact Hy|].
      intros z Hz. unfold most_recent_first in *. by eapply string_leb_trans.
Qed.

Lemma sort_by_updated_at_sorted l :
  StronglySorted most_recent_first (sort_by_updated_at l).
Proof.
  induction l as [|x l IH]; simpl; [constructor|].
  by apply insert_by_updated_at_sorted.
Qed.

(** X10. [list_sessions] returns the summaries of exactly the sessions
    whose file parses and, when a status is asked for, whose status is
    that one; a file that does not parse is skipped. The list is ordered
    by [updated_at], latest first: every entry was updated no earlier
    than every entry after it. It has at most one entry per file. *)
Theorem list_sessions_filters_and_sorts status st :
  (∀ e, e ∈ list_sessions status st ↔
        ∃ file d, session_dir st !! file = Some (Stored d) ∧ e = summary d ∧
                  ∀ wanted, status = Some wanted → ProjectSession.status d = wanted) ∧
  StronglySorted most_recent_first (list_sessions status st) ∧
  (length (list_sessions status st) ≤ size (session_dir st))%nat.
Proof.
  unfold list_sessions. split_and!.
  - intros e. rewrite sort_by_updated_at_perm, list_elem_of_omap. unfold glob. split.
    + intros ([file f] & Hin & Hl). apply elem_of_map_to_list in Hin.
      unfold listed in Hl. simpl in Hl. destruct f as [d|]; [|done].
      exists file, d. split; [done|].
      destruct status as [wanted|].
      * destruct (String.eqb_spec (ProjectSession.status d) wanted); [|done].
        split; [congruence|]. by intros ? [= <-].
      * split; [congruence|done].
    + intros (file & d & Hfile & -> & Hstatus).
      exists (file, Stored d). split; [by apply elem_of_map_to_list|].
      unfold listed. simpl. destruct status as [wanted|]; [|done].
      by rewrite (Hstatus _ eq_refl), String.eqb_refl.
  - apply sort_by_updated_at_sorted.
  - rewrite sort_by_updated_at_perm. unfold glob.
    rewrite <- length_map_to_list.
    generalize (map_to_list (session_dir st)). intros l.
    induction l as [|f l IH]; [done|].
    change (omap (listed status) (f :: l))
      with (match listed status f with
            | Some e => e :: omap (listed status) l
            | None => omap (listed status) l
            end).
    destruct (listed status f); simpl; lia.
Qed.

End SessionStoreOperations.

(** ** The tools and the dispatcher: errors and the sentinel *)

Section Tools.

Import AutonomousAgent.

Context {W : Type} `{Library} `{Collaborators W}.

Lemma startswith_self (p : string) : startswith p p = true.
Proof.
  unfold startswith. induction p as [|c p IH]; simpl; [done|].
  by destruct (Ascii.ascii_dec c c).
Qed.

Lemma startswith_app (s p t : string) :
  startswith s p = true → startswith (s +:+ t) p = true.
Proof.
  unfold startswith. revert s. induction p as [|c p IH]; intros [|d s]; simpl; try done.
  - intros _. by destruct t.
  - destruct (Ascii.ascii_dec _ _); [apply IH|done].
Qed.

(** A [try] whose handler returns a text hands back a text. *)
Lemma try_except_returns {A} (m : @M W A) (f : string → A) (s : State W) :
  ∃ a, fst (try_except m (λ e, ret (f e)) s) = Ok a.
Proof.
  unfold try_except, ret. destruct (m s) as [[a|e] s']; simpl; eauto.
Qed.

Lemma tool_returns (m : @M W string) (s : State W) :
  stable world_step m →
  (∃ text, fst (m s) = Ok text) →
  ∃ text w, m s = (Ok text, with_world s w).
Proof.
  intros Hm [text Htext]. destruct (world_only_run m s Hm) as (r & w & E).
  rewrite E in Htext |- *. simpl in Htext. subst r. eauto.
Qed.

(** X11. None of the six tool methods raises, whatever its arguments
    are and whatever its collaborator does: each returns a text, and
    leaves the agent as it was but for the world. *)
Theorem tools_never_raise (s : State W) :
  (∀ command use_sudo cwd, ∃ text w,
      execute_command command use_sudo cwd s = (Ok text, with_world s w)) ∧
  (∀ file_path content, ∃ text w,
      create_file file_path content s = (Ok text, with_world s w)) ∧
  (∀ file_path, ∃ text w, read_file file_path s = (Ok text, with_world s w)) ∧
  (∀ directory_path, ∃ text w,
      create_directory directory_path s = (Ok text, with_world s w)) ∧
  (∀ directory_path, ∃ text w,
      list_directory directory_path s = (Ok text, with_world s w)) ∧
  (∀ url wait_time, ∃ text w,
      check_browser_console url wait_time s = (Ok text, with_world s w)).
Proof.
  split_and!; intros; apply tool_returns;
    first [ apply world_only_execute_command | apply world_only_create_file
          | apply world_only_read_file | apply world_only_create_directory
          | apply world_only_list_directory | apply world_only_check_browser_console
          | apply try_except_returns ].
Qed.

(** X12. [create_file] reports each failure as a text behind
    [Error creating file: ] and undoes nothing. A path that is not a
    string fails before the file system is touched; when making the
    parent directories raises, nothing is written; when the write raises,
    the directories made for it stay. Only when both succeed is the
    result [Successfully created file: <path>]. *)
Theorem create_file_failures file_path content (s : State W) :
  (∀ e, Path file_path = Raise e →
     create_file file_path content s = (Ok ("Error creating file: " +:+ e), s)) ∧
  (∀ path e w, file_path = JStr path →
     fs_mkdir (path_parent path) (world s) = (Raise e, w) →
     create_file file_path content s
     = (Ok ("Error creating file: " +:+ e), with_world s w)) ∧
  (∀ path e w1 w2, file_path = JStr path →
     fs_mkdir (path_parent path) (world s) = (Ok tt, w1) →
     fs_write_text path content w1 = (Raise e, w2) →
     create_file file_path content s
     = (Ok ("Error creating file: " +:+ e), with_world s w2)) ∧
  (∀ path w1 w2, file_path = JStr path →
     fs_mkdir (path_parent path) (world s) = (Ok tt, w1) →
     fs_write_text path content w1 = (Ok tt, w2) →
     create_file file_path content s
     = (Ok ("Successfully created file: " +:+ path), with_world s w2)).
Proof.
  unfold create_file, try_except, bind, lift, call, ret.
  split_and!.
  - intros e ->. done.
  - intros path e w -> Hm. simpl. by rewrite Hm.
  - intros path e w1 w2 -> Hm Hw. simpl. rewrite Hm. simpl. by rewrite Hw.
  - intros path w1 w2 -> Hm Hw. simpl. rewrite Hm. simpl. by rewrite Hw.
Qed.

(** X13. [execute_command] with a command that is neither a string nor
    a list nor a dict (a missing [command] is [None]) never reaches the
    terminal: the membership test raises, the result is that error
    behind [Error executing command: ], and the agent and the world are
    as they were. With a string, the terminal is
    called once, with a timeout of 600 seconds when the command mentions
    [npm], [npx] or [install] and of 60 seconds otherwise; what it raises
    comes back behind [Error executing command: ], and what it returns
    comes back behind [Exit code: <n>] and a newline, which is the whole
    result when both outputs are empty. *)
Theorem execute_command_timeout_and_errors use_sudo cwd (s : State W) :
  (∀ command, (∀ text, command ≠ JStr text) → (∀ l, command ≠ JArr l) →
     (∀ kv, command ≠ JObj kv) →
     ∃ e, execute_command command use_sudo cwd s
          = (Ok ("Error executing command: " +:+ e), s)) ∧
  (∀ command e w,
     terminal_execute (JStr command) use_sudo cwd (command_timeout command) (world s)
     = (Raise e, w) →
     execute_command (JStr command) use_sudo cwd s
     = (Ok ("Error executing command: " +:+ e), with_world s w)) ∧
  (∀ command exit_code stdout stderr w,
     terminal_execute (JStr command) use_sudo cwd (command_timeout command) (world s)
     = (Ok (exit_code, stdout, stderr), w) →
     ∃ text,
       execute_command (JStr command) use_sudo cwd s = (Ok text, with_world s w) ∧
       startswith text ("Exit code: " +:+ pretty exit_code +:+ nl) = true ∧
       (stdout = "" → stderr = "" →
        text = "Exit code: " +:+ pretty exit_code +:+ nl)).
Proof.
  split_and!.
  - intros command Hs Hl Ho.
    destruct command as [|b|n|text|l|kv]; try (by eexists);
      try (by destruct (Hs text)); try (by destruct (Hl l)); by destruct (Ho kv).
  - intros command e w Hrun.
    unfold execute_command, try_except, bind, lift, call, ret, command_timeout in *.
    simpl. revert Hrun.
    destruct (contains "npm" command); simpl; [by intros ->|].
    destruct (contains "npx" command); simpl; [by intros ->|].
    destruct (contains "install" command); simpl; by intros ->.
  - intros command exit_code stdout stderr w Hrun.
    assert (execute_command (JStr command) use_sudo cwd s =
            (Ok (let result := "Exit code: " +:+ pretty exit_code +:+ nl in
                 let result := if String.eqb stdout "" then result
                               else result +:+ "STDOUT:" +:+ nl +:+ stdout +:+ nl in
                 if String.eqb stderr "" then result
                 else result +:+ "STDERR:" +:+ nl +:+ stderr +:+ nl),
             with_world s w)) as ->.
    { unfold execute_command, try_except, bind, lift, call, ret, command_timeout in *.
      simpl. revert Hrun.
      destruct (contains "npm" command); simpl; [by intros ->|].
      destruct (contains "npx" command); simpl; [by intros ->|].
      destruct (contains "install" command); simpl; by intros ->. }
    eexists. split_and!; [done| |].
    + cbv zeta.
      destruct (String.eqb stdout ""), (String.eqb stderr "");
        first [ apply startswith_self
              | apply startswith_app; apply startswith_self
              | apply startswith_app; apply startswith_app; apply startswith_self ].
    + intros -> ->. done.
Qed.















End Tools.

(** ** The conversation and the outcome of a run *)

Section Traces.

Import AutonomousAgent.

Context {W : Type} `{Library} `{Collaborators W}.

(** A batch that raises has answered the calls before the one that
    raised, and nothing else is in the conversation. *)
Lemma for_tool_calls_raised tool_calls : ∀ v (s : State W) e s',
  for_tool_calls tool_calls v s = (Raise e, s') →
  ∃ pre tool_call post results,
    tool_calls = pre ++ tool_call :: post ∧
    length results = length pre ∧
    conversation_history s' = conversation_history s ++ tool_turns pre results.
Proof.
  induction tool_calls as [|tc tcs IH]; intros v s e s'; simpl; [done|].
  unfold bind at 1.
  destruct (for_tool_call tc v s) as [[v1|e1] s1] eqn:Hcall.
  - intros Hrest. apply IH in Hrest as (pre & tc' & post & results & -> & Hlen & Hh).
    rewrite for_tool_call_eq in Hcall.
    destruct (json_loads (tc_arguments tc)) as [a|?]; [|done].
    destruct (_execute_tool_state (tc_name tc) a s) as (r & w & Hdisp).
    rewrite Hdisp in Hcall. destruct r as [r|?]; [|done].
    assert (s1 = extended (dispatched s (tc_name tc) a w) [Tool (tc_id tc) r]) as ->.
    { destruct (startswith r SENTINEL); [destruct (payload r)|]; congruence. }
    exists (tc :: pre), tc', post, (r :: results). simpl in *.
    split_and!; [done|by rewrite Hlen|]. by rewrite Hh, <- app_assoc.
  - intros [= <- <-]. exists [], tc, tcs, []. split_and!; try done.
    simpl. rewrite app_nil_r.
    rewrite for_tool_call_eq in Hcall.
    destruct (json_loads (tc_arguments tc)) as [a|?]; [|congruence].
    destruct (_execute_tool_state (tc_name tc) a s) as (r & w & Hdisp).
    rewrite Hdisp in Hcall. destruct r as [r|?]; [|by injection Hcall as _ <-].
    destruct (startswith r SENTINEL); [destruct (payload r)|]; try done.
    by injection Hcall as _ <-.
Qed.

(** One iteration that does not raise: an assistant turn, then the
    results of its calls in order, or no call and at most the reminder. *)
Lemma iteration_body_ok iteration v (s : State W) flow v' s' :
  iteration_body iteration v s = (Ok (flow, v'), s') →
  max_iterations s' = max_iterations s ∧
  project_session_id s' = project_session_id s ∧
  ∃ text,
    (∃ tcs results,
        tcs ≠ [] ∧ length results = length tcs ∧
        conversation_history s'
        = conversation_history s ++ Assistant text (Some tcs) :: tool_turns tcs results ∧
        v' = fold_left absorb results v ∧
        Forall (λ r, startswith r SENTINEL = true → ∃ ci, payload r = Ok ci) results) ∨
    (v' = v ∧
     (conversation_history s' = conversation_history s ++ [Assistant text None] ∨
      conversation_history s'
      = conversation_history s ++ [Assistant text None; User reminder])).
Proof.
  rewrite iteration_body_eq.
  destruct (chat_completions_create (conversation_history s) (world s))
    as [[message|e] w]; [|done].
  destruct (tool_calls message) as [[|tc0 tcs]|].
  1, 3: destruct ((iteration =? 1) && truthy_str (content message));
        intros [= _ <- <-]; (split; [done|]); (split; [done|]);
        exists (content message); right; (split; [done|]); by (left + right).
  destruct (for_tool_calls (tc0 :: tcs) v _) as [[v1|e] s1] eqn:Hrun; [|done].
  intros [= <- <- <-].
  apply for_tool_calls_ok in Hrun
    as (_ & results & _ & Hlen & Hh & _ & Hv & HP & Hm & Hp & _ & _).
  split_and!; [done|done|]. exists (content message). left.
  exists (tc0 :: tcs), results. split_and!; try done.
  rewrite Hh. simpl. by rewrite <- app_assoc.
Qed.

(** One iteration that raises: the service raised and nothing was
    appended, or the assistant turn is there with the results of the
    calls before the one that raised. *)
Lemma iteration_body_raised iteration v (s : State W) e s' :
  iteration_body iteration v s = (Raise e, s') →
  max_iterations s' = max_iterations s ∧
  project_session_id s' = project_session_id s ∧
  (conversation_history s' = conversation_history s ∨
   ∃ text pre tool_call post results,
     length results = length pre ∧
     conversation_history s'
     = conversation_history s
         ++ Assistant text (Some (pre ++ tool_call :: post)) :: tool_turns pre results).
Proof.
  rewrite iteration_body_eq.
  destruct (chat_completions_create (conversation_history s) (world s))
    as [[message|e0] w].
  2: { intros [= <- <-]. split_and!; try done. by left. }
  destruct (tool_calls message) as [[|tc0 tcs]|].
  1, 3: by destruct ((iteration =? 1) && truthy_str (content message)).
  destruct (for_tool_calls (tc0 :: tcs) v _) as [[v1|e1] s1] eqn:Hrun; [done|].
  intros [= <- <-].
  destruct (for_tool_calls_frame (tc0 :: tcs) v
              (extended (with_world s w) [Assistant (content message) (Some (tc0 :: tcs))]))
    as (Hm & Hp & _).
  rewrite Hrun in Hm, Hp. simpl in Hm, Hp.
  apply for_tool_calls_raised in Hrun as (pre & tc' & post & results & E & Hlen & Hh).
  split_and!; [done|done|]. right.
  exists (content message), pre, tc', post, results. split; [done|].
  rewrite Hh, <- E. simpl. by rewrite <- app_assoc.
Qed.

(** What every entered iteration keeps holds when the loop is left; what
    every raising iteration establishes holds of the dict returned. *)
Lemma while_loop_invariant (I : Z → bool → json → State W → Prop)
    (J : Z → State W → Prop) :
  (∀ it ci s flow tc' ci' s',
     I it false ci s → it < max_iterations s →
     iteration_body (it + 1) (false, ci) s = (Ok (flow, (tc', ci')), s') →
     I (it + 1) tc' ci' s') →
  (∀ it ci s e s',
     I it false ci s → it < max_iterations s →
     iteration_body (it + 1) (false, ci) s = (Raise e, s') →
     J (it + 1) s') →
  ∀ fuel it tc ci s ending s',
    I it tc ci s →
    while_loop fuel it tc ci s = Some (ending, s') →
    match ending with
    | Exited it' tc' ci' => I it' tc' ci' s'
    | Returned outcome => ∃ e it', outcome = error_outcome e it' s' ∧ J it' s'
    end.
Proof.
  intros Hok Hraise. induction fuel as [|fuel IH]; intros it tc ci s ending s' Hs; simpl.
  - destruct ((it <? max_iterations s) && negb tc); [done|]. by intros [= <- <-].
  - destruct ((it <? max_iterations s) && negb tc) eqn:Hcond; [|by intros [= <- <-]].
    apply andb_true_iff in Hcond as [Hlt Htc]. apply Z.ltb_lt in Hlt.
    apply negb_true_iff in Htc. subst tc.
    destruct (iteration_body (it + 1) (false, ci) s) as [[[flow [tc1 ci1]]|e] s1] eqn:Hbody.
    + pose proof (Hok _ _ _ _ _ _ _ Hs Hlt Hbody) as Hs1.
      destruct flow; [by apply IH|]. by intros [= <- <-].
    + intros [= <- <-]. exists e, (it + 1). split; [done|]. eauto.
Qed.

Lemma unanswered_app h1 : ∀ pending h2,
  unanswered pending (h1 ++ h2)
  = match unanswered pending h1 with
    | Some waiting => unanswered waiting h2
    | None => None
    end.
Proof.
  induction h1 as [|t h1 IH]; intros pending h2; simpl; [done|].
  destruct t; destruct pending; try done; try apply IH.
  destruct (String.eqb _ _); [apply IH|done].
Qed.

Lemma unanswered_tool_turns pre : ∀ post results,
  length results = length pre →
  unanswered (map tc_id (pre ++ post)) (tool_turns pre results) = Some (map tc_id post).
Proof.
  induction pre as [|tc pre IH]; intros post [|r results] Hlen; simpl in *; try done.
  rewrite String.eqb_refl. apply IH. lia.
Qed.

Lemma assistant_turns_app h1 h2 :
  assistant_turns (h1 ++ h2) = (assistant_turns h1 + assistant_turns h2)%nat.
Proof. unfold assistant_turns. by rewrite List.filter_app, length_app. Qed.

Lemma assistant_turns_tool_turns tcs : ∀ results,
  assistant_turns (tool_turns tcs results) = 0%nat.
Proof. induction tcs as [|tc tcs IH]; intros [|r results]; simpl; try done. apply IH. Qed.

Lemma assistant_turns_batch text calls tcs results :
  assistant_turns (Assistant text calls :: tool_turns tcs results) = 1%nat.
Proof.
  change (S (assistant_turns (tool_turns tcs results)) = 1%nat).
  by rewrite assistant_turns_tool_turns.
Qed.

Lemma fold_absorb_fst results : ∀ v,
  Forall (λ r, startswith r SENTINEL = true → ∃ ci, payload r = Ok ci) results →
  fst (fold_left absorb results v)
  = fst v || existsb (λ r, startswith r SENTINEL) results.
Proof.
  induction results as [|r results IH]; intros v HP; simpl.
  - by rewrite orb_false_r.
  - apply Forall_cons in HP as [Hr HP]. rewrite (IH _ HP).
    unfold absorb. destruct (startswith r SENTINEL); simpl.
    + destruct (Hr eq_refl) as [ci ->]. simpl. by rewrite orb_true_r.
    + done.
Qed.

(** How a run ends once its preamble returned: the loop is left, and the
    dict is built without another turn; or the loop returned its own
    dict. *)
Lemma run_after_start task continue_session (s s0 : State W)
    (I : Z → bool → json → State W → Prop) (J : Z → State W → Prop) :
  start_conversation task continue_session s = (Ok tt, s0) →
  I 0 false (JObj []) s0 →
  (∀ it ci s flow tc' ci' s',
     I it false ci s → it < max_iterations s →
     iteration_body (it + 1) (false, ci) s = (Ok (flow, (tc', ci')), s') →
     I (it + 1) tc' ci' s') →
  (∀ it ci s e s',
     I it false ci s → it < max_iterations s →
     iteration_body (it + 1) (false, ci) s = (Raise e, s') →
     J (it + 1) s') →
  ∃ r s', execute_autonomous_task task continue_session s = Some (r, s') ∧
    ∀ outcome, r = Ok outcome →
      (∃ e it, outcome = error_outcome e it s' ∧ J it s') ∨
      (∃ it tc ci s1 p w summary project_path,
         I it tc ci s1 ∧
         s' = mkState (session_id s1) (max_iterations s1) p (conversation_history s1)
                (files_created s1) (commands_executed s1) (executing_tool_log s1) w ∧
         (save_session task it tc ci s1).2 = s' ∧
         get_default ci "summary" (JStr "Task completed") = Ok summary ∧
         get ci "project_path" = Ok project_path ∧
         outcome = dict [("success", JBool tc);
                         ("summary", summary);
                         ("project_path", project_path);
                         ("iterations", JNum it);
                         ("max_iterations_reached", JBool (max_iterations s1 <=? it));
                         ("session_id", of_optional p);
                         ("files_created", JNum (Z.of_nat (length (files_created s1))));
                         ("commands_executed",
                          JNum (Z.of_nat (length (commands_executed s1))))]).
Proof.
  intros Hstart H0' Hok Hraise. unfold execute_autonomous_task. rewrite Hstart.
  destruct (while_loop_returns (JObj []) s0) as (ending & s1 & Hloop). rewrite Hloop.
  pose proof (while_loop_invariant I J Hok Hraise _ _ _ _ _ _ _ H0' Hloop) as Hend.
  destruct ending as [it tc ci | outcome].
  - destruct (session_step_run _ s1 (session_step_save_session task it tc ci))
      as (r1 & p & w1 & Hsave).
    unfold bind. rewrite Hsave. destruct r1 as [[]|e]; [|by eexists _, _].
    rewrite final_result_eq.
    destruct (get_default ci "summary" _) as [summary|e] eqn:Es; [|by eexists _, _].
    destruct (get ci "project_path") as [project_path|e] eqn:Ep; [|by eexists _, _].
    eexists _, _. split; [done|]. intros outcome [= <-]. right.
    exists it, tc, ci, s1, p, w1, summary, project_path.
    split_and!; try done. by rewrite Hsave.
  - eexists _, _. split; [done|]. intros o [= <-]. left. done.
Qed.

Lemma error_outcome_error e it (s : State W) :
  error_outcome e it s !! "error" = Some (JStr e).
Proof. done. Qed.

Lemma run_start_raised task continue_session (s : State W) e s0 :
  start_conversation task continue_session s = (Raise e, s0) →
  execute_autonomous_task task continue_session s = Some (Raise e, s0).
Proof. intros Hstart. unfold execute_autonomous_task. by rewrite Hstart. Qed.

(** X17. Whenever a run hands back a dict, its conversation is one the
    completion service accepts: no tool-result turn stands without its
    call, the results of an assistant turn follow it in the order of its
    calls, and no other turn comes in between. When the dict is the one
    built after the loop (it has no [error]), every call has its result;
    in the dict of the [except] clause the calls from the one that raised
    onwards are left without. *)
Theorem every_tool_call_is_answered task continue_session (s : State W) :
  ∃ r s', execute_autonomous_task task continue_session s = Some (r, s') ∧
    ∀ outcome, r = Ok outcome →
      ∃ pending,
        unanswered [] (conversation_history s') = Some pending ∧
        (outcome !! "error" = None → pending = []).
Proof.
  destruct (start_conversation task continue_session s) as [[[]|e] s0] eqn:Hstart.
  2: { rewrite (run_start_raised _ _ _ _ _ Hstart). by eexists _, _. }
  destruct (run_after_start task continue_session s s0
              (λ _ _ _ s1, unanswered [] (conversation_history s1) = Some [])
              (λ _ s1, ∃ pending, unanswered [] (conversation_history s1) = Some pending)
              Hstart) as (r & s' & Hrun & Hout).
  - by apply start_conversation_ok in Hstart as (text & w & ->).
  - intros it ci s1 flow tc' ci' s2 Hs1 _ Hbody.
    apply iteration_body_ok in Hbody
      as (_ & _ & text & [(tcs & results & _ & Hlen & -> & _) | (_ & [-> | ->])]);
      rewrite unanswered_app, Hs1; simpl; [|done..].
    rewrite <- (app_nil_r tcs) at 1. by apply unanswered_tool_turns.
  - intros it ci s1 e s2 Hs1 _ Hbody.
    apply iteration_body_raised in Hbody
      as (_ & _ & [-> | (text & pre & tc & post & results & Hlen & ->)]); [eauto|].
    rewrite unanswered_app, Hs1. simpl. rewrite unanswered_tool_turns; eauto.
  - exists r, s'. split; [done|]. intros outcome Hr.
    destruct (Hout _ Hr) as [(e & it & -> & pending & Hp)
                            | (it & tc & ci & s1 & p & w & su & pp & Hs1 & -> & _)].
    + exists pending. split; [done|]. by rewrite error_outcome_error.
    + exists []. done.
Qed.

(** X18. [iterations] counts the responses of the completion service:
    in the dict built after the loop it is the number of assistant turns
    of the conversation; in the dict of the [except] clause it is that
    number, or one more when the request itself raised. *)
Theorem iterations_count_responses task continue_session (s : State W) :
  ∃ r s', execute_autonomous_task task continue_session s = Some (r, s') ∧
    ∀ outcome, r = Ok outcome →
      ∃ n, outcome !! "iterations" = Some (JNum n) ∧
        n - 1 ≤ Z.of_nat (assistant_turns (conversation_history s')) ≤ n ∧
        (outcome !! "error" = None →
         Z.of_nat (assistant_turns (conversation_history s')) = n).
Proof.
  destruct (start_conversation task continue_session s) as [[[]|e] s0] eqn:Hstart.
  2: { rewrite (run_start_raised _ _ _ _ _ Hstart). by eexists _, _. }
  destruct (run_after_start task continue_session s s0
              (λ it _ _ s1, Z.of_nat (assistant_turns (conversation_history s1)) = it)
              (λ it s1, it - 1 ≤ Z.of_nat (assistant_turns (conversation_history s1)) ≤ it)
              Hstart) as (r & s' & Hrun & Hout).
  - by apply start_conversation_ok in Hstart as (text & w & ->).
  - intros it ci s1 flow tc' ci' s2 Hs1 _ Hbody.
    apply iteration_body_ok in Hbody
      as (_ & _ & text & [(tcs & results & _ & Hlen & -> & _) | (_ & [-> | ->])]);
      rewrite assistant_turns_app, ?assistant_turns_batch; cbv beta in *;
      try change (assistant_turns [Assistant text None]) with 1%nat;
      try change (assistant_turns [Assistant text None; User reminder]) with 1%nat;
      lia.
  - intros it ci s1 e s2 Hs1 _ Hbody.
    apply iteration_body_raised in Hbody
      as (_ & _ & [-> | (text & pre & tc & post & results & Hlen & ->)]);
      cbv beta in *; [lia|].
    rewrite assistant_turns_app, assistant_turns_batch. lia.
  - exists r, s'. split; [done|]. intros outcome Hr.
    destruct (Hout _ Hr) as [(e & it & -> & Hit)
                            | (it & tc & ci & s1 & p & w & su & pp & Hs1 & -> & _ & _ & _ & ->)].
    + exists it. split; [done|]. split; [done|]. by rewrite error_outcome_error.
    + exists it. simpl. split; [done|]. split; [lia|done].
Qed.

(** X19. In the dict built after the loop, [success] is true exactly
    when a tool-result turn of the conversation starts with the
    sentinel. *)
Theorem success_iff_sentinel task continue_session (s : State W) :
  ∃ r s', execute_autonomous_task task continue_session s = Some (r, s') ∧
    ∀ outcome, r = Ok outcome → outcome !! "error" = None →
      outcome !! "success"
      = Some (JBool (existsb carries_sentinel (conversation_history s'))).
Proof.
  destruct (start_conversation task continue_session s) as [[[]|e] s0] eqn:Hstart.
  2: { rewrite (run_start_raised _ _ _ _ _ Hstart). by eexists _, _. }
  destruct (run_after_start task continue_session s s0
              (λ _ tc _ s1, tc = existsb carries_sentinel (conversation_history s1))
              (λ _ _, True)
              Hstart) as (r & s' & Hrun & Hout).
  - by apply start_conversation_ok in Hstart as (text & w & ->).
  - intros it ci s1 flow tc' ci' s2 Hs1 _ Hbody.
    apply iteration_body_ok in Hbody
      as (_ & _ & text & [(tcs & results & _ & Hlen & -> & Hv & HP) | (Hv & [-> | ->])]);
      rewrite existsb_app, <- Hs1; simpl.
    + rewrite tool_turns_sentinel by done.
      pose proof (fold_absorb_fst results (false, ci) HP) as Hfst.
      rewrite <- Hv in Hfst. done.
    + by injection Hv as ->.
    + by injection Hv as ->.
  - done.
  - exists r, s'. split; [done|]. intros outcome Hr Herr.
    destruct (Hout _ Hr) as [(e & it & -> & _)
                            | (it & tc & ci & s1 & p & w & su & pp & Hs1 & -> & _ & _ & _ & ->)].
    + by rewrite error_outcome_error in Herr.
    + simpl. by rewrite Hs1.
Qed.

(** The preamble, in full: the system prompt, with the context of the
    session when one is continued and has any. *)
Lemma start_conversation_spec task continue_session (s s0 : State W) :
  start_conversation task continue_session s = (Ok tt, s0) →
  ∃ context w,
    s0 = mkState (session_id s) (max_iterations s) (project_session_id s)
           [System (if String.eqb context "" then _get_system_prompt
                    else _get_system_prompt +:+ nl +:+ nl +:+ context);
            User task]
           (files_created s) (commands_executed s) (executing_tool_log s) w ∧
    (continue_session && truthy_str (project_session_id s) = false → context = "").
Proof.
  unfold start_conversation, bind, call, read, set_history, ret.
  destruct (ensure_client (world s)) as [[[]|e] w]; [|done]. simpl.
  destruct (continue_session && truthy_str (project_session_id s)); simpl.
  - destruct (get_session_context (default "" (project_session_id s)) w)
      as [[context|e] w']; [|done]. simpl.
    intros [= <-]. by exists context, w'.
  - intros [= <-]. by exists "", w.
Qed.

Lemma start_conversation_raised task continue_session (s s0 : State W) e :
  start_conversation task continue_session s = (Raise e, s0) →
  conversation_history s0 = conversation_history s.
Proof.
  unfold start_conversation, bind, call, read, set_history, ret.
  destruct (ensure_client (world s)) as [[[]|e'] w]; [|by intros [= _ <-]]. simpl.
  destruct (continue_session && truthy_str (project_session_id s)); simpl; [|done].
  destruct (get_session_context (default "" (project_session_id s)) w)
    as [[context|e'] w']; [done|]. simpl.
  by intros [= _ <-].
Qed.

(** After the loop nothing but the world and the session id changes. *)
Lemma run_end task it tc ci (s : State W) :
  ∃ r p w,
    bind (save_session task it tc ci) (λ _, final_result it tc ci) s
    = (r, mkState (session_id s) (max_iterations s) p (conversation_history s)
            (files_created s) (commands_executed s) (executing_tool_log s) w).
Proof.
  apply session_step_run.
  apply (stable_bind session_step (Transitive0 := session_step_trans)).
  - apply session_step_save_session.
  - intros _. apply session_step_final_result.
Qed.

(** X20. Every run starts its conversation afresh: unless the preamble
    raises (which leaves the earlier conversation), the conversation the
    run leaves, however it ends, opens with a system turn and the task as
    the user turn; the system turn starts with the system prompt, and is
    that prompt alone unless a session is continued with a non-empty
    session id. *)
Theorem conversation_opens_with_prompt_and_task task continue_session (s : State W) :
  ∃ r s', execute_autonomous_task task continue_session s = Some (r, s') ∧
    ((∃ e, start_conversation task continue_session s = (Raise e, s') ∧
           r = Raise e ∧
           conversation_history s' = conversation_history s) ∨
     (∃ text rest,
         conversation_history s' = System text :: User task :: rest ∧
         startswith text _get_system_prompt = true ∧
         (continue_session && truthy_str (project_session_id s) = false →
          text = _get_system_prompt))).
Proof.
  destruct (start_conversation task continue_session s) as [[[]|e] s0] eqn:Hstart.
  2: { rewrite (run_start_raised _ _ _ _ _ Hstart). eexists _, _. split; [done|].
       left. exists e. split_and!; try done. by eapply start_conversation_raised. }
  destruct (start_conversation_spec _ _ _ _ Hstart) as (context & w & Hs0 & Hctx).
  set (text := if String.eqb context "" then _get_system_prompt
               else _get_system_prompt +:+ nl +:+ nl +:+ context) in Hs0.
  assert (startswith text _get_system_prompt = true ∧
          (continue_session && truthy_str (project_session_id s) = false →
           text = _get_system_prompt)) as [Htext Hplain].
  { subst text. split.
    - destruct (String.eqb context ""); [apply startswith_self|].
      apply (prefix_app _get_system_prompt).
    - intros Hno. by rewrite (Hctx Hno). }
  unfold execute_autonomous_task. rewrite Hstart.
  destruct (while_loop_returns (JObj []) s0) as (ending & s1 & Hloop). rewrite Hloop.
  assert (match ending with
          | Exited _ _ _ =>
              ∃ rest, conversation_history s1 = System text :: User task :: rest
          | Returned outcome =>
              ∃ e it, outcome = error_outcome e it s1 ∧
                ∃ rest, conversation_history s1 = System text :: User task :: rest
          end) as Hend.
  { apply (while_loop_invariant
             (λ _ _ _ s1, ∃ rest, conversation_history s1
                                   = System text :: User task :: rest)
             (λ _ s1, ∃ rest, conversation_history s1
                               = System text :: User task :: rest))
      with (fuel := Z.to_nat (max_iterations s0)) (it := 0) (tc := false)
           (ci := JObj []) (s := s0); [| |by exists []; rewrite Hs0|done].
    - intros it ci s2 flow tc' ci' s3 [rest Hs2] _ Hbody.
      apply iteration_body_ok in Hbody
        as (_ & _ & t & [(tcs & results & _ & _ & -> & _) | (_ & [-> | ->])]);
        rewrite Hs2; eexists; by rewrite <- app_comm_cons.
    - intros it ci s2 e s3 [rest Hs2] _ Hbody.
      apply iteration_body_raised in Hbody
        as (_ & _ & [-> | (t & pre & tc & post & results & _ & ->)]);
        rewrite Hs2; eexists; try done; by rewrite <- app_comm_cons. }
  destruct ending as [it tc ci | outcome].
  - destruct Hend as [rest Hrest].
    destruct (run_end task it tc ci s1) as (r & p & w1 & ->).
    eexists _, _. split; [done|]. right. by exists text, rest.
  - destruct Hend as (_ & _ & _ & rest & Hrest).
    eexists _, _. split; [done|]. right. by exists text, rest.
Qed.

(** X21. With a cap of zero or less the loop is not entered: once
    the preamble has returned, the run hands back [success] false, the
    default summary, no project path, 0 iterations and
    [max_iterations_reached] true, and leaves the agent as the preamble
    left it: no request was made to the completion service. *)
Theorem no_budget_no_request task continue_session (s s0 : State W) :
  max_iterations s ≤ 0 →
  start_conversation task continue_session s = (Ok tt, s0) →
  execute_autonomous_task task continue_session s
  = Some (Ok (dict [("success", JBool false);
                    ("summary", JStr "Task completed");
                    ("project_path", JNull);
                    ("iterations", JNum 0);
                    ("max_iterations_reached", JBool true);
                    ("session_id", of_optional (project_session_id s));
                    ("files_created", JNum (Z.of_nat (length (files_created s))));
                    ("commands_executed",
                     JNum (Z.of_nat (length (commands_executed s))))]),
          s0).
Proof.
  intros Hmax Hstart. unfold execute_autonomous_task. rewrite Hstart.
  apply start_conversation_ok in Hstart as (text & w & ->).
  set (s0 := mkState _ _ _ _ _ _ _ _).
  assert (∀ fuel, while_loop fuel 0 false (JObj []) s0
                  = Some (Exited 0 false (JObj []), s0)) as ->.
  { intros fuel. destruct fuel; simpl;
      (replace (0 <? max_iterations s) with false; [done|]);
      symmetry; apply Z.ltb_ge; lia. }
  unfold bind. rewrite save_session_incomplete, final_result_eq. simpl.
  replace (max_iterations s <=? 0) with true; [done|].
  symmetry. apply Z.leb_le. lia.
Qed.

(** X22. The session store is used after the loop only when the task
    completed and the completion info has a truthy [project_path]:
    otherwise [save_session] does nothing at all. A run that hands back
    [success] false, or a [project_path] that is not truthy, has left the
    agent's [project_session_id] as it was, and reports that one. *)
Theorem no_session_without_completed_path :
  (∀ task iteration task_complete completion_info (s : State W),
     task_complete = false ∨
     (∃ v, get completion_info "project_path" = Ok v ∧ truthy v = false) →
     save_session task iteration task_complete completion_info s = (Ok tt, s)) ∧
  (∀ task continue_session (s : State W),
     ∃ r s', execute_autonomous_task task continue_session s = Some (r, s') ∧
       ∀ outcome, r = Ok outcome →
         outcome !! "success" = Some (JBool false) ∨
         (∃ v, outcome !! "project_path" = Some v ∧ truthy v = false) →
         project_session_id s' = project_session_id s ∧
         outcome !! "session_id" = Some (of_optional (project_session_id s))).
Proof.
  assert (∀ task iteration task_complete completion_info (s : State W),
     task_complete = false ∨
     (∃ v, get completion_info "project_path" = Ok v ∧ truthy v = false) →
     save_session task iteration task_complete completion_info s = (Ok tt, s)) as Hskip.
  { intros task it tc ci s [-> | (v & Hv & Hfalsy)]; [done|].
    unfold save_session, bind, lift, ret. destruct tc; [|done].
    rewrite Hv. simpl. by rewrite Hfalsy. }
  split; [done|].
  intros task continue_session s.
  destruct (start_conversation task continue_session s) as [[[]|e] s0] eqn:Hstart.
  2: { rewrite (run_start_raised _ _ _ _ _ Hstart). by eexists _, _. }
  destruct (run_after_start task continue_session s s0
              (λ _ _ _ s1, project_session_id s1 = project_session_id s)
              (λ _ s1, project_session_id s1 = project_session_id s)
              Hstart) as (r & s' & Hrun & Hout).
  - by apply start_conversation_ok in Hstart as (text & w & ->).
  - intros it ci s1 flow tc' ci' s2 Hs1 _ Hbody.
    apply iteration_body_ok in Hbody as (_ & -> & _). done.
  - intros it ci s1 e s2 Hs1 _ Hbody.
    apply iteration_body_raised in Hbody as (_ & -> & _). done.
  - exists r, s'. split; [done|]. intros outcome Hr Hcase.
    destruct (Hout _ Hr)
      as [(e & it & -> & Hp)
         | (it & tc & ci & s1 & p & w & su & pp & Hs1 & Hs' & Hsave & Hsu & Hpp & ->)].
    + unfold error_outcome. simpl. by rewrite Hp.
    + rewrite Hskip in Hsave.
      * simpl in Hsave. rewrite <- Hsave. simpl.
        rewrite <- Hsave in Hs'. destruct s1. simpl in *. injection Hs' as <- _.
        by rewrite Hs1.
      * destruct Hcase as [Hs | (v & Hv & Hfalsy)].
        -- change (Some (JBool tc) = Some (JBool false)) in Hs.
           injection Hs as ->. by left.
        -- change (Some pp = Some v) in Hv. injection Hv as <-. right. eauto.
Qed.

(** X28. A run that ends without completing, and not in the [except]
    clause, still reports the default summary: in its dict [summary] is
    [Task completed] and [project_path] is [None], beside [success]
    false. *)
Theorem unfinished_run_reports_default_summary task continue_session (s : State W) :
  ∃ r s', execute_autonomous_task task continue_session s = Some (r, s') ∧
    ∀ outcome, r = Ok outcome →
      outcome !! "success" = Some (JBool false) →
      outcome !! "error" = None →
      outcome !! "summary" = Some (JStr "Task completed") ∧
      outcome !! "project_path" = Some JNull.
Proof.
  destruct (start_conversation task continue_session s) as [[[]|e] s0] eqn:Hstart.
  2: { rewrite (run_start_raised _ _ _ _ _ Hstart). by eexists _, _. }
  destruct (run_after_start task continue_session s s0
              (λ _ tc ci _, tc = false → ci = JObj [])
              (λ _ _, True)
              Hstart) as (r & s' & Hrun & Hout).
  - done.
  - intros it ci s1 flow tc' ci' s2 Hs1 _ Hbody Htc. subst tc'.
    apply iteration_body_ok in Hbody
      as (_ & _ & text & [(tcs & results & _ & _ & _ & Hv & _) | (Hv & _)]).
    + pose proof (fold_absorb_false results (false, ci)) as Hsame.
      rewrite <- Hv in Hsame. specialize (Hsame eq_refl).
      injection Hsame as ->. by apply Hs1.
    + injection Hv as ->. by apply Hs1.
  - done.
  - exists r, s'. split; [done|]. intros outcome Hr Hs Herr.
    destruct (Hout _ Hr)
      as [(e & it & -> & _)
         | (it & tc & ci & s1 & p & w & su & pp & Hs1 & _ & _ & Hsu & Hpp & ->)].
    + by rewrite error_outcome_error in Herr.
    + change (Some (JBool tc) = Some (JBool false)) in Hs. injection Hs as ->.
      rewrite (Hs1 eq_refl) in Hsu, Hpp. injection Hsu as <-. injection Hpp as <-.
      done.
Qed.

End Traces.

(** ** What a run keeps of the agent *)

Section Bookkeeping.

Import AutonomousAgent.

Context {W : Type} `{Library} `{Collaborators W}.

#[local] Instance grown_refl : Reflexive (grown (W:=W)).
Proof. intros s. by repeat split. Qed.

#[local] Instance grown_trans : Transitive (grown (W:=W)).
Proof.
  intros s1 s2 s3 (Hi & Hm & Hf & Hc & Hl) (Hi' & Hm' & Hf' & Hc' & Hl').
  repeat split; try congruence; by etrans.
Qed.

Lemma grown_call {A} (f : W → result A * W) : stable grown (call f).
Proof. intros s. unfold call. destruct (f (world s)). by repeat split. Qed.

Lemma grown_set_history h : stable (W:=W) grown (set_history h).
Proof. intros s. by repeat split. Qed.

Lemma grown_append_history t : stable (W:=W) grown (append_history t).
Proof. intros s. by repeat split. Qed.

Lemma grown_set_project_session_id p : stable (W:=W) grown (set_project_session_id p).
Proof. intros s. by repeat split. Qed.

Lemma grown_append_files_created v : stable (W:=W) grown (append_files_created v).
Proof. intros s. repeat split; simpl; try done. by apply prefix_app_r. Qed.

Lemma grown_append_commands_executed v :
  stable (W:=W) grown (append_commands_executed v).
Proof. intros s. repeat split; simpl; try done. by apply prefix_app_r. Qed.

Lemma grown_log_executing_tool n a : stable (W:=W) grown (log_executing_tool n a).
Proof. intros s. repeat split; simpl; try done. by apply prefix_app_r. Qed.

Ltac grows :=
  repeat first
    [ eapply stable_try_except; [try apply _ .. | | ]
    | eapply stable_bind; [try apply _ .. | | ]
    | apply stable_if
    | apply stable_ret; apply _
    | apply stable_lift; apply _
    | apply stable_read; apply _
    | apply grown_call
    | apply grown_set_history
    | apply grown_append_history
    | apply grown_set_project_session_id
    | apply grown_append_files_created
    | apply grown_append_commands_executed
    | apply grown_log_executing_tool
    | intros ?
    | progress case_match ].

Lemma grown__execute_tool n a : stable grown (_execute_tool n a).
Proof.
  unfold _execute_tool, announce, execute_command, create_file, read_file,
    create_directory, list_directory, check_browser_console.
  grows.
Qed.

Lemma grown_for_tool_calls tcs : ∀ v, stable grown (for_tool_calls tcs v).
Proof.
  induction tcs as [|tc tcs IH]; intros v; simpl.
  - apply stable_ret; apply _.
  - eapply stable_bind; [apply _..| |intros ?; apply IH].
    unfold for_tool_call.
    eapply stable_bind; [apply _.. | apply stable_lift; apply _ |intros ?].
    eapply stable_bind; [apply _.. | apply grown__execute_tool |intros ?].
    grows.
Qed.

Lemma grown_iteration_body it v : stable grown (iteration_body it v).
Proof.
  unfold iteration_body.
  eapply stable_bind; [apply _.. | apply stable_read; apply _ |intros ?].
  eapply stable_bind; [apply _.. | apply grown_call |intros ?].
  eapply stable_bind; [apply _.. | apply grown_append_history |intros ?].
  destruct (tool_calls _) as [[|]|].
  1, 3: grows.
  eapply stable_bind; [apply _.. | apply grown_for_tool_calls |intros ?].
  apply stable_ret; apply _.
Qed.

Lemma grown_while_loop fuel : ∀ it tc ci (s : State W) ending s',
  while_loop fuel it tc ci s = Some (ending, s') → grown s s'.
Proof.
  induction fuel as [|fuel IH]; intros it tc ci s ending s'; simpl.
  - destruct ((it <? max_iterations s) && negb tc); [done|]. by intros [= _ <-].
  - destruct ((it <? max_iterations s) && negb tc); [|by intros [= _ <-]].
    pose proof (grown_iteration_body (it + 1) (tc, ci) s) as Hbody.
    destruct (iteration_body (it + 1) (tc, ci) s) as [[[flow [tc1 ci1]]|e] s1].
    + destruct flow.
      * intros Hloop. etrans; [exact Hbody|]. by eapply IH.
      * by intros [= _ <-].
    + by intros [= _ <-].
Qed.

(** X27. A run never changes the agent's [session_id] or its cap, and
    never resets, shortens or reorders [files_created],
    [commands_executed] or the dispatcher's log: what each held before
    the run is a prefix of what it holds after, however the run ends. *)
Theorem run_keeps_identity_and_bookkeeping task continue_session (s : State W) :
  ∃ r s', execute_autonomous_task task continue_session s = Some (r, s') ∧
    session_id s' = session_id s ∧
    max_iterations s' = max_iterations s ∧
    files_created s `prefix_of` files_created s' ∧
    commands_executed s `prefix_of` commands_executed s' ∧
    executing_tool_log s `prefix_of` executing_tool_log s'.
Proof.
  assert (stable grown (start_conversation task continue_session)) as Hstart
    by (unfold start_conversation; grows).
  specialize (Hstart s).
  unfold execute_autonomous_task.
  destruct (start_conversation task continue_session s) as [[[]|e] s0];
    [|by eexists _, _].
  destruct (while_loop_returns (JObj []) s0) as (ending & s1 & Hloop). rewrite Hloop.
  apply grown_while_loop in Hloop.
  destruct ending as [it tc ci | outcome].
  - assert (stable grown (bind (save_session task it tc ci)
                            (λ _, final_result it tc ci))) as Hend
      by (unfold save_session, final_result; grows).
    specialize (Hend s1).
    destruct (bind _ _ s1) as [r s']. eexists _, _. split; [done|].
    change (grown s s'). etrans; [exact Hstart|]. etrans; [exact Hloop|]. exact Hend.
  - eexists _, _. split; [done|]. change (grown s s1). by etrans.
Qed.

End Bookkeeping.

(** ** The terminal executor *)

Section Terminal.

Import AutonomousAgent TerminalExecutor.

Context {W : Type} `{Library} `{Collaborators W} `{Subprocess W}.

(** X25. [check_command_exists] never raises. It runs one probe,
    [command -v <name>], or [where <name>] on Windows, without [sudo],
    without a working directory and with a timeout of 5 seconds, and
    answers true exactly when the probe finishes with exit code 0: a
    probe that times out, or cannot be started, answers false. *)
Theorem check_command_exists_probes (self : Self) command (w : W) :
  let probe :=
    JStr ((if String.eqb (os_type self) "windows" then "where " else "command -v ")
          +:+ command) in
  snd (check_command_exists self command w) = snd (communicate probe JNull 5 w) ∧
  (fst (check_command_exists self command w) = true ↔
   ∃ stdout stderr, fst (communicate probe JNull 5 w) = Finished 0 stdout stderr).
Proof.
  unfold check_command_exists, execute. simpl.
  destruct (String.eqb (os_type self) "windows"); simpl.
  all: destruct (communicate _ JNull 5 w) as [[code out err| |e] w']; simpl.
  all: split; [done|]; split; try done.
  all: try (intros Hc; apply Z.eqb_eq in Hc as ->; by eexists _, _).
  all: try (by intros (? & ? & [= -> _ _])).
  all: by intros (? & ? & ?).
Qed.

(** X26. With [TerminalExecutor.execute] for the agent's terminal, a
    command that outlasts its timeout comes back to the model as the
    text [Error executing command: Command timed out after <n> seconds],
    [n] being 600 for a command that mentions [npm], [npx] or [install]
    and 60 otherwise. The command started is the one given, or [sudo]
    and the command when [use_sudo] is truthy and the system is not
    Windows. *)
Theorem timed_out_command_is_reported (self : Self) command use_sudo cwd
    (s : State W) w :
  (∀ c u d t w, terminal_execute c u d t w = execute self c u d t w) →
  communicate
    (if truthy use_sudo && negb (String.eqb (os_type self) "windows")
     then JStr ("sudo " +:+ format (JStr command))
     else JStr command)
    cwd (command_timeout command) (world s)
  = (TimedOut, w) →
  execute_command (JStr command) use_sudo cwd s
  = (Ok ("Error executing command: Command timed out after "
           +:+ pretty (command_timeout command) +:+ " seconds"),
     with_world s w).
Proof.
  intros Hwired Hrun.
  assert (terminal_execute (JStr command) use_sudo cwd (command_timeout command) (world s)
          = (Raise ("Command timed out after " +:+ pretty (command_timeout command)
                      +:+ " seconds"), w)) as Hraise.
  { rewrite Hwired. unfold execute. by rewrite Hrun. }
  revert Hraise. clear Hrun.
  unfold execute_command, try_except, bind, lift, call, ret, command_timeout.
  simpl.
  destruct (contains "npm" command); simpl; [by intros ->|].
  destruct (contains "npx" command); simpl; [by intros ->|].
  destruct (contains "install" command); simpl; by intros ->.
Qed.

End Terminal.

Section ClosedTerminal.

Import AutonomousAgent Sim Machine.

(** X26 on the closed machine: [npm install && sleep 1000] with a truthy
    [use_sudo] is started behind [sudo] and reported after 600 seconds. *)
Lemma timed_out_command_is_reported_witness :
  execute_command (JStr "npm install && sleep 1000") (JStr "yes") JNull Machine.agent
  = (Ok "Error executing command: Command timed out after 600 seconds",
     with_world Machine.agent [JStr "sudo npm install && sleep 1000"]).
Proof.
  apply (timed_out_command_is_reported Machine.linux
           "npm install && sleep 1000" (JStr "yes") JNull Machine.agent
           [JStr "sudo npm install && sleep 1000"]).
  - done.
  - vm_compute. reflexivity.
Defined.

(** X13 on the closed machine: [ls] is given 60 seconds and exits with 0
    without output. *)
Lemma execute_command_timeout_and_errors_witness :
  ∃ text,
    execute_command (JStr "ls") (JBool false) JNull Machine.agent
    = (Ok text, with_world Machine.agent [JStr "ls"]) ∧
    startswith text ("Exit code: " +:+ pretty 0 +:+ nl) = true ∧
    ("" = "" → "" = "" → text = "Exit code: " +:+ pretty 0 +:+ nl).
Proof.
  apply (proj2 (proj2 (execute_command_timeout_and_errors (JBool false) JNull
                         Machine.agent))
           "ls" 0 "" "" [JStr "ls"]).
  vm_compute. reflexivity.
Defined.

End ClosedTerminal.

(** ** Sessions and tools in the closed world *)

Section ClosedSessions.

Import AutonomousAgent Sim.





(** The session of [demo_store] after the resumed run: the task,
    [add a page], is not among its prompts. *)
Lemma resumed_run_keeps_the_prompts :
  ProjectSession.prompts <$>
    ProjectSession.stored ProjectSession.demo_id
      (sessions (world (snd (save_session "add a page" 2 true
                               (JObj [("summary", JStr "done");
                                      ("project_path", JStr "generated_projects/demo")])
                               resumed))))
  = Some ["build it"].
Proof. vm_compute. reflexivity. Qed.



(** X21 on the closed world: a cap of zero, and a reply that is never
    asked for. *)
Lemma no_budget_no_request_witness :
  execute_autonomous_task "build a site" false (agent 0 [calls [complete "call_1" "done" ""]])
  = Some (Ok (dict [("success", JBool false);
                    ("summary", JStr "Task completed");
                    ("project_path", JNull);
                    ("iterations", JNum 0);
                    ("max_iterations_reached", JBool true);
                    ("session_id", JNull);
                    ("files_created", JNum 0);
                    ("commands_executed", JNum 0)]),
          started "build a site" (agent 0 [calls [complete "call_1" "done" ""]])).
Proof.
  apply (no_budget_no_request "build a site" false
           (agent 0 [calls [complete "call_1" "done" ""]])
           (started "build a site" (agent 0 [calls [complete "call_1" "done" ""]])));
    [done | vm_compute; reflexivity].
Defined.

(** X12 on the closed world: [create_file] without [content] makes the
    directory [x] and then fails to write. *)
Lemma create_file_failures_witness :
  create_file (JStr "x/y.txt") JNull (agent 5 [])
  = (Ok "Error creating file: data must be str, not NoneType",
     with_world (agent 5 []) (with_files (world_of []) {["x" := Dir]})).
Proof.
  apply (proj1 (proj2 (proj2 (create_file_failures (JStr "x/y.txt") JNull (agent 5 []))))
           "x/y.txt" "data must be str, not NoneType"
           (with_files (world_of []) {["x" := Dir]})
           (with_files (world_of []) {["x" := Dir]}) eq_refl);
    vm_compute; reflexivity.
Defined.


(** X22 on the closed world: a loop left without completion. *)
Lemma no_session_without_completed_path_witness :
  save_session "build a site" 5 false (JObj []) finished = (Ok tt, finished).
Proof.
  apply (proj1 no_session_without_completed_path). left. reflexivity.
Defined.

End ClosedSessions.
